(** * Booking, payment and chat handlers of the hotel bot server

    A shallow embedding of the request handlers of [server.js]
    (POST /book, POST /process-payment with [processPayment], POST /chat
    behind [authenticateUser], DELETE /delete-booking/:bookingId) and of
    POST /cancel-booking from the longer listing of the same server,
    over an explicit model of the three Sequelize tables they touch.
    The handlers are written in a small monad of asynchronous
    computations with [try]/[catch]; what they cannot decide themselves
    (the clock, the Inventory service, the payment gateway, the language
    model) is an argument.  The properties of the specification that
    concern these handlers follow. *)

From Stdlib Require Import ZArith Lia.
From stdpp Require Import base option list strings gmap pretty.

Local Open Scope Z_scope.

(** ** JavaScript numbers and dates

    A JavaScript number is modelled by [option Z]: [None] is NaN and
    [Some z] an integral value.  A [Date] object is its time value, the
    number of milliseconds since the epoch, or NaN for an invalid date.
    The operations below are the abstract operations of ECMA-262 that
    [getDate] and [setDate] are defined by. *)

Module JsDate.

Definition Number := option Z.

Definition msPerDay : Z := 86400000.

Definition Day (t : Z) : Z := t `div` msPerDay.

Definition TimeWithinDay (t : Z) : Z := t `mod` msPerDay.

Definition DaysInYear (y : Z) : Z :=
  if negb (y `mod` 4 =? 0) then 365
  else if negb (y `mod` 100 =? 0) then 366
  else if negb (y `mod` 400 =? 0) then 365
  else 366.

Definition DayFromYear (y : Z) : Z :=
  365 * (y - 1970) + (y - 1969) `div` 4 - (y - 1901) `div` 100
  + (y - 1601) `div` 400.

Definition TimeFromYear (y : Z) : Z := msPerDay * DayFromYear y.

(** [YearFromTime t] is the largest [y] with [TimeFromYear y <= t]; it
    lies between [1970 + d/366] and [1970 + d/365] (in either order),
    and the search walks down from the larger of the two. *)
Fixpoint year_search (fuel : nat) (y d : Z) : Z :=
  match fuel with
  | O => y
  | S fuel' => if DayFromYear y <=? d then y else year_search fuel' (y - 1) d
  end.

Definition YearFromTime (t : Z) : Z :=
  let d := Day t in
  year_search (Z.to_nat (Z.abs d `div` 100000 + 2))
              (1970 + Z.max (d `div` 365) (d `div` 366)) d.

Definition InLeapYear (t : Z) : Z :=
  if DaysInYear (YearFromTime t) =? 366 then 1 else 0.

Definition DayWithinYear (t : Z) : Z := Day t - DayFromYear (YearFromTime t).

Definition MonthFromTime (t : Z) : Z :=
  let d := DayWithinYear t in
  let leap := InLeapYear t in
  if d <? 31 then 0
  else if d <? 59 + leap then 1
  else if d <? 90 + leap then 2
  else if d <? 120 + leap then 3
  else if d <? 151 + leap then 4
  else if d <? 181 + leap then 5
  else if d <? 212 + leap then 6
  else if d <? 243 + leap then 7
  else if d <? 273 + leap then 8
  else if d <? 304 + leap then 9
  else if d <? 334 + leap then 10
  else 11.

Definition DateFromTime (t : Z) : Z :=
  let d := DayWithinYear t in
  let leap := InLeapYear t in
  match MonthFromTime t with
  | 0 => d + 1
  | 1 => d - 30
  | 2 => d - 58 - leap
  | 3 => d - 89 - leap
  | 4 => d - 119 - leap
  | 5 => d - 150 - leap
  | 6 => d - 180 - leap
  | 7 => d - 211 - leap
  | 8 => d - 242 - leap
  | 9 => d - 272 - leap
  | 10 => d - 303 - leap
  | _ => d - 333 - leap
  end.

(** Day number, within its year, of the first day of month [mn]. *)
Definition firstDayOfMonth (mn leap : Z) : Z :=
  match mn with
  | 0 => 0
  | 1 => 31
  | 2 => 59 + leap
  | 3 => 90 + leap
  | 4 => 120 + leap
  | 5 => 151 + leap
  | 6 => 181 + leap
  | 7 => 212 + leap
  | 8 => 243 + leap
  | 9 => 273 + leap
  | 10 => 304 + leap
  | _ => 334 + leap
  end.

(** [MakeDay year month date]: the day number of the first of month
    [mn] in year [ym], plus [date - 1]. *)
Definition MakeDay (year month date : Z) : Z :=
  let ym := year + month `div` 12 in
  let mn := month `mod` 12 in
  let leap := if DaysInYear ym =? 366 then 1 else 0 in
  DayFromYear ym + firstDayOfMonth mn leap + date - 1.

Definition MakeDate (day time : Z) : Z := day * msPerDay + time.

Definition TimeClip (time : Z) : Number :=
  if Z.abs time >? 8640000000000000 then None else Some time.

Section LocalZone.

(** The offset of the host's time zone from UTC, in milliseconds.  The
    zone is taken to have a fixed offset (no daylight-saving change
    between check-in and check-out). *)
Variable LocalTZA : Z.

Definition LocalTime (t : Z) : Z := t + LocalTZA.

Definition UTC (t : Z) : Z := t - LocalTZA.

(** [Date.prototype.getDate()] *)
Definition getDate (tv : Number) : Number :=
  match tv with
  | None => None
  | Some t => Some (DateFromTime (LocalTime t))
  end.

(** [Date.prototype.setDate(date)]: the new time value of the object. *)
Definition setDate (tv : Number) (date : Number) : Number :=
  match tv with
  | None => None
  | Some t =>
      match date with
      | None => None
      | Some dt =>
          let t := LocalTime t in
          let newDate :=
            MakeDate (MakeDay (YearFromTime t) (MonthFromTime t) dt)
                     (TimeWithinDay t) in
          TimeClip (UTC newDate)
      end
  end.

End LocalZone.

(** The [+] operator on two numbers. *)
Definition add (a b : Number) : Number :=
  match a, b with
  | Some x, Some y => Some (x + y)
  | _, _ => None
  end.

(** The [-] operator on two dates (the difference of their time values). *)
Definition sub (a b : Number) : Number :=
  match a, b with
  | Some x, Some y => Some (x - y)
  | _, _ => None
  end.

End JsDate.

Import JsDate.


(** ** The tables

    Each Sequelize model is a table.  [User] and [Booking] declare a
    primary key, so they are finite maps from that key to the remaining
    columns; [Conversation] has none of its own and is the list of its
    rows, a row's position standing for its generated identifier.  The
    [createdAt] and [updatedAt] columns Sequelize adds are not read by
    any handler and are left out. *)

Module User.

Record row := mkRow {
  fullName : option string;
  email : option string;
  lastInteraction : Z
}.

Definition set_lastInteraction (d : Z) (r : row) : row :=
  {| fullName := fullName r; email := email r; lastInteraction := d |}.

End User.

(** One turn of a transcript.  The content is a string, [null] (a model
    reply that carries no text) or [undefined] (a request without a
    [message] field). *)
Inductive Content :=
| Undefined
| Null
| Str (s : string).

Record Turn := mkTurn { role : string; content : Content }.

Module Conversation.

(** The [messages] column holds [JSON.stringify] of the array of
    turns; as [JSON.parse] gives that array back, the column is
    modelled by the array. *)
Record row := mkRow {
  userId : string;
  messages : list Turn
}.

Definition set_messages (ms : list Turn) (r : row) : row :=
  {| userId := userId r; messages := ms |}.

(** [Conversation.findOne({ where: { userId } })]: the first row of
    that user, with its position. *)
Definition findOne (u : string) (tbl : list row) : option (nat * row) :=
  list_find (λ r, userId r = u) tbl.

End Conversation.

Module Booking.

(** The columns of a booking other than its key [bookingId].  A
    column left [undefined] at creation is stored as NULL ([None]);
    a date column holds a time value. *)
Record row := mkRow {
  userId : option string;
  roomId : option Z;
  checkInDate : Number;
  checkOutDate : Number;
  totalAmount : Z;
  isPaid : bool
}.

Definition set_isPaid (b : bool) (r : row) : row :=
  {| userId := userId r; roomId := roomId r;
     checkInDate := checkInDate r; checkOutDate := checkOutDate r;
     totalAmount := totalAmount r; isPaid := b |}.

(** [Booking.create(row)]: the insertion is refused ([None]) when the
    primary key is already in the table. *)
Definition create (id : string) (r : row) (tbl : gmap string row)
  : option (gmap string row) :=
  match tbl !! id with
  | Some _ => None
  | None => Some (<[id := r]> tbl)
  end.

(** [Booking.update({ isPaid: v }, { where: { bookingId: id } })] *)
Definition update_isPaid (v : bool) (id : string) (tbl : gmap string row)
  : gmap string row :=
  alter (set_isPaid v) id tbl.

(** [Booking.findOne({ where: { bookingId } })] *)
Definition findOne (id : string) (tbl : gmap string row) : option row :=
  tbl !! id.

(** [Booking.findOne({ where: { bookingId, userId } })] *)
Definition findOne_owned (id u : string) (tbl : gmap string row)
  : option row :=
  match tbl !! id with
  | Some r => if decide (userId r = Some u) then Some r else None
  | None => None
  end.

(** [booking.destroy()] of the row found under [id]. *)
Definition destroy (id : string) (tbl : gmap string row) : gmap string row :=
  delete id tbl.

End Booking.

(** ** The Inventory service *)

Module Inventory.

(** The body posted to the service; a field that is [undefined] in
    the request is absent from it. *)
Record payload := mkPayload {
  roomId : option Z;
  fullName : option string;
  email : option string;
  nights : option Z
}.

(** [response.data] of a successful call. *)
Record data := mkData {
  bookingId : string;
  totalPrice : Z
}.

(** The call either rejects (network error, non-2xx status, timeout)
    or resolves with the service's answer. *)
Inductive outcome :=
| Fails
| Succeeds (d : data).

End Inventory.

(** ** The world and the effects of a handler *)

Record World := mkWorld {
  users : gmap string User.row;
  conversations : list Conversation.row;
  bookings : gmap string Booking.row;
  (** the requests issued to the Inventory service so far, oldest
      first; no handler reads it *)
  outbox : list Inventory.payload
}.

Definition set_users (f : gmap string User.row → gmap string User.row)
    (w : World) : World :=
  {| users := f (users w); conversations := conversations w;
     bookings := bookings w; outbox := outbox w |}.

Definition set_conversations
    (f : list Conversation.row → list Conversation.row) (w : World) : World :=
  {| users := users w; conversations := f (conversations w);
     bookings := bookings w; outbox := outbox w |}.

Definition set_bookings
    (f : gmap string Booking.row → gmap string Booking.row) (w : World)
    : World :=
  {| users := users w; conversations := conversations w;
     bookings := f (bookings w); outbox := outbox w |}.

Definition set_outbox
    (f : list Inventory.payload → list Inventory.payload) (w : World) : World :=
  {| users := users w; conversations := conversations w;
     bookings := bookings w; outbox := f (outbox w) |}.

(** An asynchronous computation: from a world it yields the world it
    leaves behind and either a value or, when a promise it awaits
    rejects, nothing. *)
Definition Async (A : Type) : Type := World → World * option A.

Global Instance Async_ret : MRet Async := λ A a w, (w, Some a).

Global Instance Async_bind : MBind Async := λ A B k m w,
  match m w with
  | (w', Some a) => k a w'
  | (w', None) => (w', None)
  end.

Definition throw {A} : Async A := λ w, (w, None).

(** [try { body } catch (error) { handler }] *)
Definition try_catch {A} (body handler : Async A) : Async A := λ w,
  match body w with
  | (w', Some a) => (w', Some a)
  | (w', None) => handler w'
  end.

Definition gets {A} (f : World → A) : Async A := λ w, (w, Some (f w)).

Definition modify (f : World → World) : Async unit := λ w, (f w, Some tt).

(** Lifts an operation that may be refused to the world. *)
Definition attempt (f : World → option World) : Async unit := λ w,
  match f w with
  | Some w' => (w', Some tt)
  | None => (w, None)
  end.

(** ** Requests and responses *)

(** [req.body] of POST /book.  A field missing from the request is
    [undefined] ([None]); a number is integral. *)
Module BookReq.
Record body := mkBody {
  roomId : option Z;
  fullName : option string;
  email : option string;
  nights : option Z
}.
End BookReq.

(** [req.body] of POST /process-payment, the arguments of
    [processPayment]. *)
Module PaymentReq.
Record body := mkBody {
  bookingId : string;
  amount : Z;
  method : string
}.
End PaymentReq.

(** [req.body] of POST /chat. *)
Module ChatReq.
Record body := mkBody {
  userId : option string;
  message : option string
}.
End ChatReq.

(** [req.body] of POST /cancel-booking. *)
Module CancelReq.
Record body := mkBody {
  bookingId : string;
  userId : string
}.
End CancelReq.

(** DELETE /delete-booking/:bookingId: the route parameter, and the
    [userId] of the request body, by which [authenticateUser] identifies
    a caller on the routes that use it. *)
Module DeleteReq.
Record request := mkRequest {
  bookingId : string;
  userId : option string
}.
End DeleteReq.

(** The JSON bodies the handlers answer with. *)
Inductive ResBody :=
| JError (error : string)
| JMessage (message : string)
| JBooking (d : Inventory.data)
| JPayment (paymentResult : gmap string string)
| JMessages (messages : list Turn).

Record Response := mkResponse { status : Z; json : ResBody }.

(** [res.json(b)] and [res.status(c).json(b)] *)
Definition res_json (b : ResBody) : Response := {| status := 200; json := b |}.

Definition res_status_json (c : Z) (b : ResBody) : Response :=
  {| status := c; json := b |}.

(** ** The payment gateway and the language model *)

Module Gateway.
(** What the simulated gateway resolves with; [success] and
    [transactionId] are drawn at random. *)
Record response := mkResponse {
  success : bool;
  transactionId : string;
  message : string
}.
End Gateway.

(** The outcome of [openai.chat.completions.create] followed by the
    reading of [choices[0].message.content]: either of them throws, or
    the content is obtained. *)
Inductive Completion :=
| Rejects
| Replies (c : Content).

(** ** The handlers *)

Section Server.

Variable LocalTZA : Z.

(** [axios.post('https://bot9assignement.deno.dev/book', p)] *)
Definition axios_post_book (inventory : Inventory.payload → Inventory.outcome)
    (p : Inventory.payload) : Async Inventory.data := λ w,
  let w' := set_outbox (λ l, l ++ [p]) w in
  match inventory p with
  | Inventory.Fails => (w', None)
  | Inventory.Succeeds d => (w', Some d)
  end.

(** [checkOutDate] of POST /book:
    [new Date(checkInDate)] after [setDate(getDate() + nights)]. *)
Definition checkOut (checkInDate : Number) (nights : Number) : Number :=
  setDate LocalTZA checkInDate (add (getDate LocalTZA checkInDate) nights).

(** The body POST /book sends to the Inventory service:
    [{ roomId, fullName, email, nights }]. *)
Definition book_payload (req : BookReq.body) : Inventory.payload :=
  {| Inventory.roomId := BookReq.roomId req;
     Inventory.fullName := BookReq.fullName req;
     Inventory.email := BookReq.email req;
     Inventory.nights := BookReq.nights req |}.

(** The row POST /book hands to [Booking.create], under the key
    [response.data.bookingId]. *)
Definition book_row (now : Z) (req : BookReq.body)
    (response : Inventory.data) : Booking.row :=
  let checkInDate := Some now in
  let checkOutDate := checkOut checkInDate (BookReq.nights req) in
  {| Booking.userId := BookReq.email req;
     Booking.roomId := BookReq.roomId req;
     Booking.checkInDate := checkInDate;
     Booking.checkOutDate := checkOutDate;
     Booking.totalAmount := Inventory.totalPrice response;
     Booking.isPaid := false |}.

(** [app.post('/book', ...)]; [now] is the time value of [new Date()]. *)
Definition POST_book (inventory : Inventory.payload → Inventory.outcome)
    (now : Z) (req : BookReq.body) : Async Response :=
  try_catch
    (response ← axios_post_book inventory (book_payload req);
     attempt (λ w,
       tbl ← Booking.create (Inventory.bookingId response)
               (book_row now req response) (bookings w);
       Some (set_bookings (λ _, tbl) w));;
     mret (res_json (JBooking response)))
    (mret (res_status_json 500 (JError "Error booking room"))).

(** [processPayment(bookingId, amount, method)]; [gatewayResponse] is
    what the gateway promise resolves with.  The object returned is
    the finite map of its properties. *)
Definition processPayment (gatewayResponse : Gateway.response)
    (bookingId : string) (amount : Z) (method : string)
    : Async (gmap string string) :=
  try_catch
    (if Gateway.success gatewayResponse then
       modify (set_bookings (Booking.update_isPaid true bookingId));;
       mret ({[ "status" := "success";
                "message" :=
                  "Payment of $" +:+ pretty amount +:+ " processed via "
                  +:+ method +:+ ". Transaction ID: "
                  +:+ Gateway.transactionId gatewayResponse ]}
             : gmap string string)
     else
       mret ({[ "status" := "failed";
                "message" := "Payment processing failed. Please try again." ]}
             : gmap string string))
    (mret ({[ "status" := "failed";
              "message" := "An error occurred while processing the payment." ]}
           : gmap string string)).


(** [authenticateUser]: a falsy [userId] (missing or empty) is answered
    with 401, otherwise the next handler runs. *)
Definition authenticateUser (userId : option string)
    (next : string → Async Response) : Async Response :=
  match userId with
  | None => mret (res_status_json 401 (JError "Unauthorized"))
  | Some u =>
      if decide (u = "") then
        mret (res_status_json 401 (JError "Unauthorized"))
      else next u
  end.

Definition content_of (message : option string) : Content :=
  match message with
  | None => Undefined
  | Some s => Str s
  end.

(** The handler of POST /chat, behind [authenticateUser]. *)
Definition chat (completion : Completion) (now : Z)
    (message : option string) (userId : string) : Async Response :=
  user ← gets (λ w, users w !! userId);
  match user with
  | None =>
      modify (set_users
        <[userId := {| User.fullName := None; User.email := None;
                       User.lastInteraction := now |}]>)
  | Some _ =>
      modify (set_users (alter (User.set_lastInteraction now) userId))
  end;;
  found ← gets (λ w, Conversation.findOne userId (conversations w));
  conversation ←
    match found with
    | Some c => mret c
    | None =>
        id ← gets (λ w, length (conversations w));
        let c := {| Conversation.userId := userId;
                    Conversation.messages := [] |} in
        modify (set_conversations (λ l, l ++ [c]));;
        mret (id, c)
    end;
  let messages :=
    Conversation.messages conversation.2
    ++ [ {| role := "user"; content := content_of message |} ] in
  try_catch
    (assistantMessage ←
       match completion with
       | Rejects => throw
       | Replies c => mret c
       end;
     let messages :=
       messages ++ [ {| role := "system"; content := assistantMessage |} ] in
     modify (set_conversations
       <[conversation.1 := Conversation.set_messages messages conversation.2]>);;
     mret (res_json (JMessages messages)))
    (mret (res_status_json 500 (JError "Error processing chat"))).

(** [app.post('/chat', authenticateUser, ...)] *)
Definition POST_chat (completion : Completion) (now : Z)
    (req : ChatReq.body) : Async Response :=
  authenticateUser (ChatReq.userId req)
    (chat completion now (ChatReq.message req)).

(** [app.delete('/delete-booking/:bookingId', ...)] *)
Definition DELETE_delete_booking (req : DeleteReq.request) : Async Response :=
  let bookingId := DeleteReq.bookingId req in
  try_catch
    (booking ← gets (λ w, Booking.findOne bookingId (bookings w));
     match booking with
     | None => mret (res_status_json 404 (JError "Booking not found"))
     | Some _ =>
         modify (set_bookings (Booking.destroy bookingId));;
         mret (res_json (JMessage "Booking deleted successfully"))
     end)
    (mret (res_status_json 500 (JError "Error deleting booking"))).

(** [app.post('/cancel-booking', ...)] *)
Definition POST_cancel_booking (req : CancelReq.body) : Async Response :=
  let bookingId := CancelReq.bookingId req in
  let userId := CancelReq.userId req in
  try_catch
    (booking ← gets (λ w, Booking.findOne_owned bookingId userId (bookings w));
     match booking with
     | None => mret (res_status_json 404 (JError "Booking not found"))
     | Some _ =>
         modify (set_bookings (Booking.destroy bookingId));;
         mret (res_json (JMessage "Booking canceled successfully"))
     end)
    (mret (res_status_json 500 (JError "Error canceling booking"))).

(** POST /chat requests handled one after the other, each with the
    clock reading and the completion it meets; the responses are
    returned oldest first. *)
Fixpoint chat_session (steps : list (Z * ChatReq.body * Completion))
    (w : World) : World * list (option Response) :=
  match steps with
  | [] => (w, [])
  | (now, req, completion) :: steps' =>
      let '(w1, r) := POST_chat completion now req w in
      let '(w2, rs) := chat_session steps' w1 in
      (w2, r :: rs)
  end.

End Server.

(** ** Notions used in the statements *)

(** The stored transcript of a user: the turns of the conversation
    [findOne] returns, empty when there is none. *)
Definition transcript (u : string) (w : World) : list Turn :=
  match Conversation.findOne u (conversations w) with
  | Some (_, r) => Conversation.messages r
  | None => []
  end.

(** What one answered chat request adds to a transcript. *)
Definition exchange (step : Z * ChatReq.body * Completion) : list Turn :=
  match step with
  | (_, req, Replies c) =>
      [ {| role := "user"; content := content_of (ChatReq.message req) |};
        {| role := "system"; content := c |} ]
  | (_, _, Rejects) => []
  end.

(** A response produced with status 200. *)
Definition succeeded (r : option Response) : Prop :=
  ∃ resp, r = Some resp ∧ status resp = 200.

(** The roles the specification allows a turn to carry. *)
Definition spec_roles : list string :=
  ["user"; "assistant"; "system-function-result"].



(** A booking row stored under the identifier the Inventory service
    returned, with the room of the request, the returned price, unpaid,
    and a stay of exactly the requested number of days. *)
Definition booked (req : BookReq.body) (d : Inventory.data) (w : World)
    : Prop :=
  ∃ row,
    bookings w !! Inventory.bookingId d = Some row
    ∧ Booking.roomId row = BookReq.roomId req
    ∧ Booking.totalAmount row = Inventory.totalPrice d
    ∧ Booking.isPaid row = false
    ∧ ∃ n, BookReq.nights req = Some n
           ∧ sub (Booking.checkOutDate row) (Booking.checkInDate row)
             = Some (n * msPerDay).


(** The text of the message of a settled payment. *)
Definition settled_message (amount : Z) (method transactionId : string)
    : string :=
  "Payment of $" +:+ pretty amount +:+ " processed via " +:+ method
  +:+ ". Transaction ID: " +:+ transactionId.

(** ** Sample data *)

Definition empty_world : World :=
  {| users := ∅; conversations := []; bookings := ∅; outbox := [] |}.

Definition data_X1 : Inventory.data :=
  {| Inventory.bookingId := "X1"; Inventory.totalPrice := 300 |}.

(** An Inventory service that accepts every request as booking X1 for
    300, and one that refuses every request. *)
Definition inventory_X1 (p : Inventory.payload) : Inventory.outcome :=
  Inventory.Succeeds data_X1.

Definition inventory_down (p : Inventory.payload) : Inventory.outcome :=
  Inventory.Fails.

(** [{roomId: 5, fullName: "A B", email: "a@b.com", nights: n}] *)
Definition request_room5 (n : Z) : BookReq.body :=
  {| BookReq.roomId := Some 5; BookReq.fullName := Some "A B";
     BookReq.email := Some "a@b.com"; BookReq.nights := Some n |}.


(** 2024-03-15T10:30:00Z *)
Definition mid_march : Z := 1710498600000.

(** A booking of room 7 by c@d.com, paid or not. *)
Definition row_room7 (paid : bool) : Booking.row :=
  {| Booking.userId := Some "c@d.com"; Booking.roomId := Some 7;
     Booking.checkInDate := Some mid_march;
     Booking.checkOutDate := Some (mid_march + 2 * msPerDay);
     Booking.totalAmount := 180; Booking.isPaid := paid |}.

(** A world whose only booking is X1, the one above. *)
Definition world_X1 (paid : bool) : World :=
  {| users := ∅; conversations := [];
     bookings := {[ "X1" := row_room7 paid ]}; outbox := [] |}.

Definition gateway_ok : Gateway.response :=
  {| Gateway.success := true; Gateway.transactionId := "K3J9X0Q2A";
     Gateway.message := "Payment processed successfully" |}.

Definition gateway_declined : Gateway.response :=
  {| Gateway.success := false; Gateway.transactionId := "K3J9X0Q2A";
     Gateway.message := "Payment processed successfully" |}.

Definition chat_hi : ChatReq.body :=
  {| ChatReq.userId := Some "u1"; ChatReq.message := Some "hi" |}.

(** One chat request of user u1, answered by the model with "hello". *)
Definition session_hi : list (Z * ChatReq.body * Completion) :=
  [ (mid_march, chat_hi, Replies (Str "hello")) ].

(** ** The reply of the completion endpoint

    [openai.chat.completions.create] resolves with the JSON body the
    endpoint at [OPENAI_BASE_URL] answers with, or rejects.  The body is
    either a chat completion as the API defines it,
    [{choices: [{message: {content}}]}], or one that holds it under a
    [data] property, [{data: {choices: [{message: {content}}]}}]. *)
Inductive CompletionBody :=
| Plain (c : Content)
| InData (c : Content).

Inductive ChatCall :=
| CallRejects
| CallResolves (body : CompletionBody).

(** [completion.data.choices[0].message.content]: on a plain completion
    [completion.data] is [undefined] and reading [choices] from it
    throws, inside the [try] of the handler. *)
Definition read_reply (call : ChatCall) : Completion :=
  match call with
  | CallRejects => Rejects
  | CallResolves (Plain _) => Rejects
  | CallResolves (InData c) => Replies c
  end.

(** One chat request of user u1 that the endpoint answers with "hello",
    under [data] and plainly. *)
Definition session_hi_in_data : list (Z * ChatReq.body * Completion) :=
  [ (mid_march, chat_hi, read_reply (CallResolves (InData (Str "hello")))) ].

Definition session_hi_plain : list (Z * ChatReq.body * Completion) :=
  [ (mid_march, chat_hi, read_reply (CallResolves (Plain (Str "hello")))) ].

(** ** Further handlers

    The remaining routes over the [User], [Conversation] and [Booking]
    tables: POST /register, PUT /update-user/:userId,
    GET /conversations/:userId, GET /bookings/:userId and, from the
    longer listing, GET /booking-details/:bookingId. *)

(** What a handler answers with: [res.json(a)] for a value read from
    the tables (status 200), or one of the bodies of [ResBody] under its
    status. *)
Inductive Reply (A : Type) :=
| Json (a : A)
| Other (r : Response).

Arguments Json {A} a.
Arguments Other {A} r.

(** The HTTP status of a reply. *)
Definition reply_status {A} (r : Reply A) : Z :=
  match r with
  | Json _ => 200
  | Other r => status r
  end.

Module UserTable.

(** [User.create(row)]: refused when the [userId] is already stored. *)
Definition create (id : string) (r : User.row) (tbl : gmap string User.row)
  : option (gmap string User.row) :=
  match tbl !! id with
  | Some _ => None
  | None => Some (<[id := r]> tbl)
  end.

Definition set_contact (fullName email : string) (r : User.row) : User.row :=
  {| User.fullName := Some fullName; User.email := Some email;
     User.lastInteraction := User.lastInteraction r |}.

(** [User.update({ fullName, email }, { where: { userId: id } })] *)
Definition update_contact (fullName email id : string)
    (tbl : gmap string User.row) : gmap string User.row :=
  alter (set_contact fullName email) id tbl.

End UserTable.

(** [req.body] of POST /register; the key [userId] is given. *)
Module RegisterReq.
Record body := mkBody {
  userId : string;
  fullName : option string;
  email : option string
}.
End RegisterReq.

(** [req.body] of PUT /update-user/:userId, both fields given. *)
Module UpdateUserReq.
Record body := mkBody {
  fullName : string;
  email : string
}.
End UpdateUserReq.

(** [app.post('/register', ...)]; the answer is the user created, its
    key and its columns. *)
Definition POST_register (now : Z) (req : RegisterReq.body)
    : Async (Reply (string * User.row)) :=
  let user := {| User.fullName := RegisterReq.fullName req;
                 User.email := RegisterReq.email req;
                 User.lastInteraction := now |} in
  try_catch
    (attempt (λ w,
       tbl ← UserTable.create (RegisterReq.userId req) user (users w);
       Some (set_users (λ _, tbl) w));;
     mret (Json (RegisterReq.userId req, user)))
    (mret (Other (res_status_json 500 (JError "Error registering user")))).

(** [app.put('/update-user/:userId', ...)] *)
Definition PUT_update_user (userId : string) (req : UpdateUserReq.body)
    : Async Response :=
  try_catch
    (modify (set_users
       (UserTable.update_contact (UpdateUserReq.fullName req)
          (UpdateUserReq.email req) userId));;
     mret (res_json (JMessage "User updated successfully")))
    (mret (res_status_json 500 (JError "Error updating user"))).

(** [app.get('/conversations/:userId', ...)]: the rows of that user, in
    the order of their identifiers. *)
Definition GET_conversations (userId : string)
    : Async (Reply (list Conversation.row)) :=
  try_catch
    (conversations ← gets (λ w,
       filter (λ r, Conversation.userId r = userId) (conversations w));
     mret (Json conversations))
    (mret (Other (res_status_json 500 (JError "Error fetching conversations")))).

(** [app.get('/bookings/:userId', ...)]: the bookings whose [userId]
    column is the parameter.  The query has no ORDER BY; the rows
    returned are given as the table of them. *)
Definition GET_bookings (userId : string)
    : Async (Reply (gmap string Booking.row)) :=
  try_catch
    (bookings ← gets (λ w,
       filter (λ kv, Booking.userId kv.2 = Some userId) (bookings w));
     mret (Json bookings))
    (mret (Other (res_status_json 500 (JError "Error fetching bookings")))).

(** [app.get('/booking-details/:bookingId', ...)] *)
Definition GET_booking_details (bookingId : string)
    : Async (Reply Booking.row) :=
  try_catch
    (booking ← gets (λ w, Booking.findOne bookingId (bookings w));
     match booking with
     | None => mret (Other (res_status_json 404 (JError "Booking not found")))
     | Some r => mret (Json r)
     end)
    (mret (Other (res_status_json 500
                    (JError "Error fetching booking details")))).

(** At most one conversation row for each user. *)
Definition one_conversation_each (w : World) : Prop :=
  NoDup (Conversation.userId <$> conversations w).

(** A user registered as Ann, and a world where she is the only user. *)
Definition register_ann : RegisterReq.body :=
  {| RegisterReq.userId := "u1"; RegisterReq.fullName := Some "Ann";
     RegisterReq.email := Some "ann@b.com" |}.

Definition world_ann : World :=
  {| users := {[ "u1" := {| User.fullName := Some "Ann";
                            User.email := Some "ann@b.com";
                            User.lastInteraction := 0 |} ]};
     conversations := []; bookings := ∅; outbox := [] |}.

(** [{roomId: 5, fullName: "A B", email: "a@b.com"}], with no [nights]. *)
Definition request_no_nights : BookReq.body :=
  {| BookReq.roomId := Some 5; BookReq.fullName := Some "A B";
     BookReq.email := Some "a@b.com"; BookReq.nights := None |}.

(** * Properties *)

(** ** Date arithmetic *)

(** A year begins where the year before ends. *)
Lemma DayFromYear_succ y : DayFromYear (y + 1) = DayFromYear y + DaysInYear y.
Proof.
  unfold DayFromYear, DaysInYear.
  repeat match goal with
         | |- context [?a =? ?b] => destruct (Z.eqb_spec a b)
         end; cbn [negb]; Z.div_mod_to_equations; lia.
Qed.

Lemma DayFromYear_mono y y' : y <= y' → DayFromYear y <= DayFromYear y'.
Proof. unfold DayFromYear. intros. Z.div_mod_to_equations. lia. Qed.

(** The search stops at the year of day [d], provided it starts at or
    after it and has fuel to reach it. *)
Lemma year_search_spec fuel : ∀ y d,
  d < DayFromYear (y + 1) →
  DayFromYear (y - Z.of_nat fuel + 1) <= d →
  DayFromYear (year_search fuel y d) <= d
  < DayFromYear (year_search fuel y d + 1).
Proof.
  induction fuel as [|f IH]; intros y d Hhi Hlo.
  - change (Z.of_nat 0) with 0 in Hlo. rewrite Z.sub_0_r in Hlo. simpl. lia.
  - simpl. destruct (Z.leb_spec (DayFromYear y) d); [lia|].
    apply IH.
    + by replace (y - 1 + 1) with y by lia.
    + by replace (y - 1 - Z.of_nat f + 1) with (y - Z.of_nat (S f) + 1)
        by lia.
Qed.

(** [YearFromTime t] is the year that holds the day of [t] ... *)
Lemma YearFromTime_spec t :
  DayFromYear (YearFromTime t) <= Day t < DayFromYear (YearFromTime t + 1).
Proof.
  unfold YearFromTime. generalize (Day t). intros d.
  apply year_search_spec.
  - unfold DayFromYear. Z.div_mod_to_equations. lia.
  - rewrite Z2Nat.id by (Z.div_mod_to_equations; lia).
    unfold DayFromYear. Z.div_mod_to_equations. lia.
Qed.

(** ... hence the largest [y] with [TimeFromYear y <= t], as ECMA-262
    defines it ... *)
Lemma YearFromTime_largest t y :
  TimeFromYear (YearFromTime t) <= t
  ∧ (TimeFromYear y <= t → y <= YearFromTime t).
Proof.
  pose proof (YearFromTime_spec t) as [Hlo Hhi].
  unfold TimeFromYear, Day, msPerDay in *. split.
  - Z.div_mod_to_equations. lia.
  - intros Hy.
    destruct (Z.le_gt_cases y (YearFromTime t)) as [|Hgt]; [done|].
    pose proof (DayFromYear_mono (YearFromTime t + 1) y).
    Z.div_mod_to_equations. lia.
Qed.

(** ... and the only year whose days include the day of [t]. *)
Lemma YearFromTime_unique t y :
  DayFromYear y <= Day t < DayFromYear (y + 1) → YearFromTime t = y.
Proof.
  intros [Hlo Hhi]. pose proof (YearFromTime_spec t) as [Hlo' Hhi'].
  destruct (Z.lt_trichotomy (YearFromTime t) y) as [Hlt|[Heq|Hgt]]; [|done|].
  - pose proof (DayFromYear_mono (YearFromTime t + 1) y). lia.
  - pose proof (DayFromYear_mono (y + 1) (YearFromTime t)). lia.
Qed.

Ltac each_month mn :=
  let H := fresh "Hmn" in
  assert (mn = 0 ∨ mn = 1 ∨ mn = 2 ∨ mn = 3 ∨ mn = 4 ∨ mn = 5 ∨ mn = 6
          ∨ mn = 7 ∨ mn = 8 ∨ mn = 9 ∨ mn = 10 ∨ mn = 11) as H by lia;
  repeat (destruct H as [H|H]); subst mn.

(** The time value at which month [mn] of year [ym] begins has that
    year, that month, and date 1. *)
Lemma first_of_month ym mn :
  0 <= mn < 12 →
  let day := DayFromYear ym
             + firstDayOfMonth mn (if DaysInYear ym =? 366 then 1 else 0) in
  Day (MakeDate day 0) = day
  ∧ YearFromTime (MakeDate day 0) = ym
  ∧ MonthFromTime (MakeDate day 0) = mn
  ∧ DateFromTime (MakeDate day 0) = 1.
Proof.
  intros Hmn day.
  assert (Day (MakeDate day 0) = day) as Hday.
  { unfold Day, MakeDate, msPerDay. rewrite Z.add_0_r. by apply Z.div_mul. }
  assert (DaysInYear ym = 365 ∨ DaysInYear ym = 366) as Hdays.
  { unfold DaysInYear. repeat case_match; auto. }
  assert (YearFromTime (MakeDate day 0) = ym) as Hyear.
  { apply YearFromTime_unique. rewrite Hday, DayFromYear_succ. unfold day.
    destruct Hdays as [-> | ->]; each_month mn; simpl; lia. }
  assert (DayWithinYear (MakeDate day 0)
          = firstDayOfMonth mn (if DaysInYear ym =? 366 then 1 else 0))
    as Hwithin.
  { unfold DayWithinYear. rewrite Hyear, Hday. unfold day. lia. }
  split; [done|]. split; [done|].
  unfold DateFromTime, MonthFromTime, InLeapYear.
  rewrite Hwithin, Hyear.
  destruct Hdays as [-> | ->]; each_month mn; split; reflexivity.
Qed.

(** [MakeDay year month date] is as ECMA-262 defines it: [date - 1]
    days after the day of the time value whose year is [ym], whose
    month is [mn] and whose date is 1. *)
Lemma MakeDay_first_of_month year month :
  YearFromTime (MakeDate (MakeDay year month 1) 0) = year + month `div` 12
  ∧ MonthFromTime (MakeDate (MakeDay year month 1) 0) = month `mod` 12
  ∧ DateFromTime (MakeDate (MakeDay year month 1) 0) = 1
  ∧ ∀ date, MakeDay year month date
            = Day (MakeDate (MakeDay year month 1) 0) + date - 1.
Proof.
  pose proof (Z.mod_pos_bound month 12 ltac:(lia)) as Hmn.
  destruct (first_of_month (year + month `div` 12) (month `mod` 12) Hmn)
    as (Hday & Hyear & Hmonth & Hdate).
  assert (∀ date, MakeDay year month date
                  = DayFromYear (year + month `div` 12)
                    + firstDayOfMonth (month `mod` 12)
                        (if DaysInYear (year + month `div` 12) =? 366
                         then 1 else 0)
                    + date - 1) as Hmake by done.
  rewrite (Hmake 1), Z.add_simpl_r.
  split; [done|]. split; [done|]. split; [done|].
  intros date. rewrite Hday. apply Hmake.
Qed.

Lemma MonthFromTime_cases t :
  MonthFromTime t ∈ [0; 1; 2; 3; 4; 5; 6; 7; 8; 9; 10; 11].
Proof.
  unfold MonthFromTime.
  repeat (case_match; [set_solver|]). set_solver.
Qed.

(** The month's first day plus the date within the month is the day
    within the year, counted from one. *)
Lemma firstDayOfMonth_DateFromTime t :
  firstDayOfMonth (MonthFromTime t) (InLeapYear t) + DateFromTime t
  = DayWithinYear t + 1.
Proof.
  unfold DateFromTime.
  pose proof (MonthFromTime_cases t) as Hm.
  repeat (apply elem_of_cons in Hm as [->|Hm]; [simpl; lia|]).
  by apply elem_of_nil in Hm.
Qed.

(** [setDate] on [getDate() + n] moves the local day number by [n]. *)
Lemma MakeDay_DateFromTime t n :
  MakeDay (YearFromTime t) (MonthFromTime t) (DateFromTime t + n) = Day t + n.
Proof.
  unfold MakeDay.
  assert (0 <= MonthFromTime t < 12) as Hm.
  { pose proof (MonthFromTime_cases t) as Hm.
    repeat (apply elem_of_cons in Hm as [->|Hm]; [lia|]).
    by apply elem_of_nil in Hm. }
  rewrite (Z.div_small _ _ Hm), (Z.mod_small _ _ Hm), Z.add_0_r.
  pose proof (firstDayOfMonth_DateFromTime t) as Hd.
  unfold InLeapYear, DayWithinYear in Hd. lia.
Qed.

Lemma MakeDate_Day_TimeWithinDay t n :
  MakeDate (Day t + n) (TimeWithinDay t) = t + n * msPerDay.
Proof.
  unfold MakeDate, Day, TimeWithinDay.
  pose proof (Z.div_mod t msPerDay) as H.
  unfold msPerDay in *. lia.
Qed.

Section DateFacts.

Variable LocalTZA : Z.

(** Within the range of valid time values, the check-out date of
    POST /book is the check-in date plus [n] days of 86400000 ms. *)
Lemma checkOut_spec now n :
  Z.abs (now + n * msPerDay) <= 8640000000000000 →
  checkOut LocalTZA (Some now) (Some n) = Some (now + n * msPerDay).
Proof.
  intros Hr. unfold checkOut, getDate, add, setDate.
  rewrite MakeDay_DateFromTime, MakeDate_Day_TimeWithinDay.
  unfold UTC, LocalTime, TimeClip.
  replace (now + LocalTZA + n * msPerDay - LocalTZA)
    with (now + n * msPerDay) by lia.
  destruct (Z.gtb_spec (Z.abs (now + n * msPerDay)) 8640000000000000);
    [lia | done].
Qed.

(** Beyond that range the check-out date is invalid. *)
Lemma checkOut_out_of_range now n :
  8640000000000000 < Z.abs (now + n * msPerDay) →
  checkOut LocalTZA (Some now) (Some n) = None.
Proof.
  intros Hr. unfold checkOut, getDate, add, setDate.
  rewrite MakeDay_DateFromTime, MakeDate_Day_TimeWithinDay.
  unfold UTC, LocalTime, TimeClip.
  replace (now + LocalTZA + n * msPerDay - LocalTZA)
    with (now + n * msPerDay) by lia.
  destruct (Z.gtb_spec (Z.abs (now + n * msPerDay)) 8640000000000000);
    [done | lia].
Qed.

(** A request without [nights] gets an invalid check-out date. *)
Lemma checkOut_undefined d : checkOut LocalTZA d None = None.
Proof. unfold checkOut, add, getDate, setDate. by destruct d. Qed.

End DateFacts.

(** ** The effects of POST /book *)

Ltac run_async :=
  unfold try_catch, mbind, Async_bind, mret, Async_ret, gets, modify,
    attempt, throw; simpl.

Section BookFacts.

Variable LocalTZA : Z.
Variable inventory : Inventory.payload → Inventory.outcome.
Variables (now : Z) (req : BookReq.body) (w : World).

(** The Inventory call fails: nothing but the outgoing request. *)
Lemma POST_book_upstream_failure :
  inventory (book_payload req) = Inventory.Fails →
  POST_book LocalTZA inventory now req w
  = (set_outbox (λ l, l ++ [book_payload req]) w,
     Some (res_status_json 500 (JError "Error booking room"))).
Proof.
  intros Hi. unfold POST_book, axios_post_book. run_async.
  by rewrite Hi.
Qed.

(** The call succeeds with an identifier not yet in the table. *)
Lemma POST_book_created d :
  inventory (book_payload req) = Inventory.Succeeds d →
  bookings w !! Inventory.bookingId d = None →
  POST_book LocalTZA inventory now req w
  = (set_bookings
       (λ _, <[Inventory.bookingId d := book_row LocalTZA now req d]>
               (bookings w))
       (set_outbox (λ l, l ++ [book_payload req]) w),
     Some (res_json (JBooking d))).
Proof.
  intros Hi Hn. unfold POST_book, axios_post_book, Booking.create.
  run_async. rewrite Hi. simpl. by rewrite Hn.
Qed.

(** The call succeeds with an identifier already in the table: the
    insertion is refused and caught. *)
Lemma POST_book_duplicate d r :
  inventory (book_payload req) = Inventory.Succeeds d →
  bookings w !! Inventory.bookingId d = Some r →
  POST_book LocalTZA inventory now req w
  = (set_outbox (λ l, l ++ [book_payload req]) w,
     Some (res_status_json 500 (JError "Error booking room"))).
Proof.
  intros Hi Hn. unfold POST_book, axios_post_book, Booking.create.
  run_async. rewrite Hi. simpl. by rewrite Hn.
Qed.

End BookFacts.

(** C1, as amended.  When the Inventory call of a book operation
    succeeds with [{bookingId, totalPrice}], no booking is stored yet
    under that [bookingId], [nights] is an integer [n], and the instant
    [n] days after now is a valid time value, the operation answers 200
    with the service's payload and a Booking row exists afterwards under
    that [bookingId], with the request's [roomId], [totalAmount] equal
    to the returned [totalPrice], [isPaid = false], and a check-out date
    exactly [n] days (of 86400000 ms) after the check-in date. *)
Theorem book_success_persists (LocalTZA : Z)
    (inventory : Inventory.payload → Inventory.outcome) (now : Z)
    (req : BookReq.body) (w : World) (d : Inventory.data) (n : Z) :
  inventory (book_payload req) = Inventory.Succeeds d →
  bookings w !! Inventory.bookingId d = None →
  BookReq.nights req = Some n →
  Z.abs (now + n * msPerDay) <= 8640000000000000 →
  (POST_book LocalTZA inventory now req w).2 = Some (res_json (JBooking d))
  ∧ bookings (POST_book LocalTZA inventory now req w).1
      !! Inventory.bookingId d
    = Some {| Booking.userId := BookReq.email req;
              Booking.roomId := BookReq.roomId req;
              Booking.checkInDate := Some now;
              Booking.checkOutDate := Some (now + n * msPerDay);
              Booking.totalAmount := Inventory.totalPrice d;
              Booking.isPaid := false |}
  ∧ booked req d (POST_book LocalTZA inventory now req w).1.
Proof.
  intros Hi Hfresh Hn Hrange.
  rewrite (POST_book_created _ _ _ _ _ _ Hi Hfresh). simpl.
  assert (book_row LocalTZA now req d
          = {| Booking.userId := BookReq.email req;
               Booking.roomId := BookReq.roomId req;
               Booking.checkInDate := Some now;
               Booking.checkOutDate := Some (now + n * msPerDay);
               Booking.totalAmount := Inventory.totalPrice d;
               Booking.isPaid := false |}) as Hrow.
  { unfold book_row. by rewrite Hn, checkOut_spec. }
  rewrite Hrow, lookup_insert_eq.
  split; [done|]. split; [done|].
  eexists. split; [apply lookup_insert_eq|]. simpl.
  repeat split; try done.
  exists n. split; [done|]. f_equal. lia.
Qed.

Lemma book_success_persists_witness :
  (POST_book 0 inventory_X1 mid_march (request_room5 3) empty_world).2
  = Some (res_json (JBooking data_X1))
  ∧ bookings (POST_book 0 inventory_X1 mid_march (request_room5 3)
                empty_world).1 !! "X1"
    = Some {| Booking.userId := Some "a@b.com";
              Booking.roomId := Some 5;
              Booking.checkInDate := Some mid_march;
              Booking.checkOutDate := Some (mid_march + 3 * msPerDay);
              Booking.totalAmount := 300;
              Booking.isPaid := false |}
  ∧ booked (request_room5 3) data_X1
      (POST_book 0 inventory_X1 mid_march (request_room5 3) empty_world).1.
Proof.
  apply (book_success_persists 0 inventory_X1 mid_march (request_room5 3)
           empty_world data_X1 3).
  - reflexivity.
  - reflexivity.
  - reflexivity.
  - vm_compute. discriminate.
Defined.

(** C1, as stated, fails.  (1) The service answers with an identifier
    under which a booking is already stored: the insertion is refused,
    the stored row, of another room, stays as it was.  (2) [nights] is
    so large that the check-out date is no valid date. *)
Lemma book_success_not_always_persisted :
  (inventory_X1 (book_payload (request_room5 3)) = Inventory.Succeeds data_X1
   ∧ ¬ booked (request_room5 3) data_X1
         (POST_book 0 inventory_X1 mid_march (request_room5 3)
            (world_X1 false)).1)
  ∧ (inventory_X1 (book_payload (request_room5 1000000000))
     = Inventory.Succeeds data_X1
     ∧ ¬ booked (request_room5 1000000000) data_X1
           (POST_book 0 inventory_X1 mid_march (request_room5 1000000000)
              empty_world).1).
Proof.
  split; (split; [reflexivity|]).
  - rewrite (POST_book_duplicate 0 inventory_X1 mid_march (request_room5 3)
               (world_X1 false) data_X1 (row_room7 false))
      by reflexivity.
    intros (row & Hrow & Hroom & _). simpl in Hrow.
    rewrite lookup_singleton_eq in Hrow. by simplify_eq.
  - rewrite (POST_book_created 0 inventory_X1 mid_march
               (request_room5 1000000000) empty_world data_X1)
      by reflexivity.
    intros (row & Hrow & _ & _ & _ & n & Hn & Hsub). simpl in Hrow.
    rewrite lookup_insert_eq in Hrow. injection Hrow as <-.
    unfold book_row, request_room5 in Hsub.
    cbn [Booking.checkOutDate Booking.checkInDate BookReq.nights] in Hsub.
    rewrite checkOut_out_of_range in Hsub by (vm_compute; reflexivity).
    discriminate Hsub.
Qed.

(** C3.  When the Inventory call of a book operation fails, the
    operation answers 500 "Error booking room" and the booking table,
    like the other tables, is exactly as it was. *)
Theorem book_failure_creates_nothing (LocalTZA : Z)
    (inventory : Inventory.payload → Inventory.outcome) (now : Z)
    (req : BookReq.body) (w : World) :
  inventory (book_payload req) = Inventory.Fails →
  (POST_book LocalTZA inventory now req w).2
  = Some {| status := 500; json := JError "Error booking room" |}
  ∧ bookings (POST_book LocalTZA inventory now req w).1 = bookings w
  ∧ users (POST_book LocalTZA inventory now req w).1 = users w
  ∧ conversations (POST_book LocalTZA inventory now req w).1
    = conversations w.
Proof.
  intros Hi. by rewrite (POST_book_upstream_failure _ _ _ _ _ Hi).
Qed.

Lemma book_failure_creates_nothing_witness :
  inventory_down (book_payload (request_room5 3)) = Inventory.Fails
  ∧ bookings (POST_book 0 inventory_down mid_march (request_room5 3)
                (world_X1 false)).1
    = bookings (world_X1 false).
Proof.
  split; [reflexivity|].
  apply (book_failure_creates_nothing 0 inventory_down mid_march
           (request_room5 3) (world_X1 false)).
  reflexivity.
Defined.




(** ** The effects of [processPayment] *)

Section PaymentFacts.

Variable LocalTZA : Z.
Variables (gw : Gateway.response) (b : string) (a : Z) (m : string).
Variable w : World.

Lemma processPayment_settled :
  Gateway.success gw = true →
  processPayment gw b a m w
  = (set_bookings (Booking.update_isPaid true b) w,
     Some {[ "status" := "success";
             "message" := settled_message a m (Gateway.transactionId gw) ]}).
Proof. intros Hs. unfold processPayment. rewrite Hs. by run_async. Qed.

Lemma processPayment_declined :
  Gateway.success gw = false →
  processPayment gw b a m w
  = (w, Some {[ "status" := "failed";
                "message" :=
                  "Payment processing failed. Please try again." ]}).
Proof. intros Hs. unfold processPayment. rewrite Hs. by run_async. Qed.

End PaymentFacts.

(** Updating the rows of an absent key changes nothing. *)
Lemma update_isPaid_absent v id (tbl : gmap string Booking.row) :
  tbl !! id = None → Booking.update_isPaid v id tbl = tbl.
Proof.
  intros Hn. unfold Booking.update_isPaid.
  apply map_eq. intros k. rewrite lookup_alter.
  case_decide; [subst; by rewrite Hn | done].
Qed.

(** Setting the flag never clears a flag that is set. *)
Lemma update_isPaid_true_monotone id id' (tbl : gmap string Booking.row) r :
  tbl !! id' = Some r → Booking.isPaid r = true →
  ∃ r', Booking.update_isPaid true id tbl !! id' = Some r'
        ∧ Booking.isPaid r' = true.
Proof.
  intros Hl Hp. unfold Booking.update_isPaid. rewrite lookup_alter.
  case_decide; subst; rewrite Hl; simpl; eauto.
Qed.


Lemma set_bookings_id (f : gmap string Booking.row → gmap string Booking.row)
    (w : World) :
  f (bookings w) = bookings w → set_bookings f w = w.
Proof. intros Hf. destruct w. unfold set_bookings. simpl in *. by rewrite Hf. Qed.

(** C2.  [processPayment] leaves every booking as it was when the
    gateway reports failure, so it sets no [isPaid] to true; when the
    gateway reports success the booking named, if stored, has
    [isPaid = true] afterwards and no other row is touched; and whatever
    the outcome, a booking whose [isPaid] is true still has it true
    afterwards. *)
Theorem payment_flag (gw : Gateway.response) (b : string) (a : Z)
    (m : string) (w : World) :
  (Gateway.success gw = false →
   bookings (processPayment gw b a m w).1 = bookings w)
  ∧ (Gateway.success gw = true →
     (∀ r, bookings w !! b = Some r →
           Booking.isPaid <$> bookings (processPayment gw b a m w).1 !! b
           = Some true)
     ∧ (∀ b', b' ≠ b →
           bookings (processPayment gw b a m w).1 !! b' = bookings w !! b'))
  ∧ (∀ b' r, bookings w !! b' = Some r → Booking.isPaid r = true →
       Booking.isPaid <$> bookings (processPayment gw b a m w).1 !! b'
       = Some true).
Proof.
  destruct (Gateway.success gw) eqn:Hs.
  - rewrite (processPayment_settled _ _ _ _ _ Hs). simpl.
    split; [done|]. split.
    + intros _. unfold Booking.update_isPaid. split.
      * intros r Hr. by rewrite lookup_alter_eq, Hr.
      * intros b' Hne. by rewrite lookup_alter_ne.
    + intros b' r Hr Hp.
      destruct (update_isPaid_true_monotone b b' _ r Hr Hp) as (r' & -> & Hp').
      simpl. by rewrite Hp'.
  - rewrite (processPayment_declined _ _ _ _ _ Hs). simpl.
    split; [done|]. split; [done|].
    intros b' r Hr Hp. rewrite Hr. simpl. by rewrite Hp.
Qed.

Lemma payment_flag_witness :
  (Gateway.success gateway_ok = true
   ∧ Booking.isPaid
       <$> bookings (processPayment gateway_ok "X1" 300 "credit_card"
                       (world_X1 false)).1 !! "X1"
     = Some true)
  ∧ (Gateway.success gateway_declined = false
     ∧ bookings (processPayment gateway_declined "X1" 300 "credit_card"
                   (world_X1 false)).1
       = bookings (world_X1 false))
  ∧ Booking.isPaid
      <$> bookings (processPayment gateway_declined "X1" 300 "credit_card"
                      (world_X1 true)).1 !! "X1"
    = Some true.
Proof.
  split; [|split].
  - split; [reflexivity|].
    destruct (payment_flag gateway_ok "X1" 300 "credit_card" (world_X1 false))
      as (_ & Hok & _).
    destruct (Hok eq_refl) as [Hpaid _].
    apply (Hpaid (row_room7 false)). apply lookup_singleton_eq.
  - split; [reflexivity|].
    destruct (payment_flag gateway_declined "X1" 300 "credit_card"
                (world_X1 false)) as (Hfail & _ & _).
    apply Hfail. reflexivity.
  - destruct (payment_flag gateway_declined "X1" 300 "credit_card"
                (world_X1 true)) as (_ & _ & Hmono).
    apply (Hmono "X1" (row_room7 true)).
    + apply lookup_singleton_eq.
    + reflexivity.
Defined.








(** ** Cancelling and deleting a booking *)

Lemma POST_cancel_booking_owner (req : CancelReq.body) (w : World) r :
  bookings w !! CancelReq.bookingId req = Some r →
  Booking.userId r = Some (CancelReq.userId req) →
  POST_cancel_booking req w
  = (set_bookings (delete (CancelReq.bookingId req)) w,
     Some (res_json (JMessage "Booking canceled successfully"))).
Proof.
  intros Hl Hu. unfold POST_cancel_booking, Booking.findOne_owned.
  run_async. rewrite Hl. by rewrite decide_True.
Qed.

Lemma POST_cancel_booking_stranger (req : CancelReq.body) (w : World) r :
  bookings w !! CancelReq.bookingId req = Some r →
  Booking.userId r ≠ Some (CancelReq.userId req) →
  POST_cancel_booking req w
  = (w, Some (res_status_json 404 (JError "Booking not found"))).
Proof.
  intros Hl Hu. unfold POST_cancel_booking, Booking.findOne_owned.
  run_async. rewrite Hl. by rewrite decide_False.
Qed.

Lemma DELETE_delete_booking_found (req : DeleteReq.request) (w : World) r :
  bookings w !! DeleteReq.bookingId req = Some r →
  DELETE_delete_booking req w
  = (set_bookings (delete (DeleteReq.bookingId req)) w,
     Some (res_json (JMessage "Booking deleted successfully"))).
Proof.
  intros Hl. unfold DELETE_delete_booking, Booking.findOne.
  run_async. by rewrite Hl.
Qed.

(** C4.  For a stored booking, POST /cancel-booking answers 200 exactly
    when the [userId] column of the booking equals the [userId] of the
    request; it then deletes the row and touches no other; otherwise it
    answers 404 "Booking not found" and the world, the row included, is
    as it was. *)
Theorem cancel_checks_owner (req : CancelReq.body) (w : World)
    (r : Booking.row) :
  bookings w !! CancelReq.bookingId req = Some r →
  ((POST_cancel_booking req w).2
   = Some {| status := 200; json := JMessage "Booking canceled successfully" |}
   ↔ Booking.userId r = Some (CancelReq.userId req))
  ∧ (Booking.userId r = Some (CancelReq.userId req) →
     bookings (POST_cancel_booking req w).1
     = delete (CancelReq.bookingId req) (bookings w)
     ∧ bookings (POST_cancel_booking req w).1 !! CancelReq.bookingId req
       = None)
  ∧ (Booking.userId r ≠ Some (CancelReq.userId req) →
     POST_cancel_booking req w
     = (w, Some {| status := 404; json := JError "Booking not found" |})
     ∧ bookings (POST_cancel_booking req w).1 !! CancelReq.bookingId req
       = Some r).
Proof.
  intros Hl.
  destruct (decide (Booking.userId r = Some (CancelReq.userId req)))
    as [Hu|Hu].
  - rewrite (POST_cancel_booking_owner _ _ _ Hl Hu). simpl.
    split; [done|]. split; [|done].
    intros _. split; [done|]. apply lookup_delete_eq.
  - rewrite (POST_cancel_booking_stranger _ _ _ Hl Hu). simpl.
    split; [split; [discriminate|done]|]. split; [done|]. done.
Qed.

Lemma cancel_checks_owner_witness :
  (bookings (world_X1 false) !! "X1" = Some (row_room7 false)
   ∧ POST_cancel_booking
       {| CancelReq.bookingId := "X1"; CancelReq.userId := "a@b.com" |}
       (world_X1 false)
     = (world_X1 false,
        Some {| status := 404; json := JError "Booking not found" |}))
  ∧ bookings
      (POST_cancel_booking
         {| CancelReq.bookingId := "X1"; CancelReq.userId := "c@d.com" |}
         (world_X1 false)).1 !! "X1"
    = None.
Proof.
  split.
  - split; [apply lookup_singleton_eq|].
    apply (cancel_checks_owner
             {| CancelReq.bookingId := "X1"; CancelReq.userId := "a@b.com" |}
             (world_X1 false) (row_room7 false)).
    + apply lookup_singleton_eq.
    + discriminate.
  - apply (cancel_checks_owner
             {| CancelReq.bookingId := "X1"; CancelReq.userId := "c@d.com" |}
             (world_X1 false) (row_room7 false)).
    + apply lookup_singleton_eq.
    + reflexivity.
Defined.

(** C10.  DELETE /delete-booking/:bookingId runs behind no
    [authenticateUser] and reads nothing but the route parameter: for
    every stored booking and every request naming it, whatever [userId]
    the request carries, if any, it answers 200 "Booking deleted
    successfully" and the row is gone, the other rows untouched.  In
    particular it does so for a [userId] for which POST /cancel-booking
    answers 404 and keeps the row. *)
Theorem delete_needs_no_owner (req : DeleteReq.request) (w : World)
    (r : Booking.row) :
  bookings w !! DeleteReq.bookingId req = Some r →
  (DELETE_delete_booking req w).2
  = Some {| status := 200; json := JMessage "Booking deleted successfully" |}
  ∧ bookings (DELETE_delete_booking req w).1
    = delete (DeleteReq.bookingId req) (bookings w)
  ∧ bookings (DELETE_delete_booking req w).1 !! DeleteReq.bookingId req = None
  ∧ (∀ u, DeleteReq.userId req = Some u → Booking.userId r ≠ Some u →
       POST_cancel_booking
         {| CancelReq.bookingId := DeleteReq.bookingId req;
            CancelReq.userId := u |} w
       = (w, Some {| status := 404; json := JError "Booking not found" |})).
Proof.
  intros Hl. rewrite (DELETE_delete_booking_found _ _ _ Hl). simpl.
  split; [done|]. split; [done|]. split; [apply lookup_delete_eq|].
  intros u _ Hu. by apply (POST_cancel_booking_stranger _ _ r).
Qed.

Lemma delete_needs_no_owner_witness :
  bookings (world_X1 true) !! "X1" = Some (row_room7 true)
  ∧ (DELETE_delete_booking
       {| DeleteReq.bookingId := "X1"; DeleteReq.userId := None |}
       (world_X1 true)).2
    = Some {| status := 200; json := JMessage "Booking deleted successfully" |}
  ∧ bookings
      (DELETE_delete_booking
         {| DeleteReq.bookingId := "X1"; DeleteReq.userId := Some "a@b.com" |}
         (world_X1 true)).1 !! "X1"
    = None.
Proof.
  split; [apply lookup_singleton_eq|]. split.
  - apply (delete_needs_no_owner
             {| DeleteReq.bookingId := "X1"; DeleteReq.userId := None |}
             (world_X1 true) (row_room7 true)).
    apply lookup_singleton_eq.
  - apply (delete_needs_no_owner
             {| DeleteReq.bookingId := "X1";
                DeleteReq.userId := Some "a@b.com" |}
             (world_X1 true) (row_room7 true)).
    apply lookup_singleton_eq.
Defined.

(** ** The transcript kept by POST /chat *)

Section ChatFacts.

Variables (now : Z) (m : option string) (u : string) (w : World).

(** The model replies and the user has a conversation: its row is
    rewritten with the two new turns at the end. *)
Lemma chat_replies_found c i r :
  Conversation.findOne u (conversations w) = Some (i, r) →
  conversations (chat (Replies c) now m u w).1
  = <[i := Conversation.set_messages
             (Conversation.messages r
              ++ [ {| role := "user"; content := content_of m |};
                   {| role := "system"; content := c |} ]) r]>
      (conversations w)
  ∧ (chat (Replies c) now m u w).2
    = Some (res_json (JMessages
              (Conversation.messages r
               ++ [ {| role := "user"; content := content_of m |};
                    {| role := "system"; content := c |} ]))).
Proof.
  intros Hf. unfold chat. run_async.
  destruct (users w !! u) as [usr|]; simpl; rewrite Hf; simpl;
    by rewrite <- app_assoc.
Qed.

(** The model replies and the user has no conversation yet: one is
    added, holding the two turns. *)
Lemma chat_replies_new c :
  Conversation.findOne u (conversations w) = None →
  conversations (chat (Replies c) now m u w).1
  = conversations w
    ++ [ {| Conversation.userId := u;
            Conversation.messages :=
              [ {| role := "user"; content := content_of m |};
                {| role := "system"; content := c |} ] |} ]
  ∧ (chat (Replies c) now m u w).2
    = Some (res_json (JMessages
              [ {| role := "user"; content := content_of m |};
                {| role := "system"; content := c |} ])).
Proof.
  intros Hf. unfold chat. run_async.
  destruct (users w !! u) as [usr|]; simpl; rewrite Hf; simpl;
    (split; [|done]);
    by rewrite insert_app_r_alt, Nat.sub_diag by lia.
Qed.

(** The model call fails: the answer is 500 and no stored transcript
    changes, though an empty conversation may have been created. *)
Lemma chat_rejects :
  (chat Rejects now m u w).2
  = Some (res_status_json 500 (JError "Error processing chat"))
  ∧ (conversations (chat Rejects now m u w).1 = conversations w
     ∨ Conversation.findOne u (conversations w) = None
       ∧ conversations (chat Rejects now m u w).1
         = conversations w
           ++ [ {| Conversation.userId := u;
                   Conversation.messages := [] |} ]).
Proof.
  unfold chat. run_async.
  destruct (users w !! u) as [usr|]; simpl;
    destruct (Conversation.findOne u (conversations w)) as [[i r]|];
    simpl; auto.
Qed.

(** An answered request appends its two turns to the transcript. *)
Lemma transcript_chat_replies c :
  transcript u (chat (Replies c) now m u w).1
  = transcript u w
    ++ [ {| role := "user"; content := content_of m |};
         {| role := "system"; content := c |} ].
Proof.
  unfold transcript.
  destruct (Conversation.findOne u (conversations w)) as [[i r]|] eqn:Hf.
  - destruct (chat_replies_found c i r Hf) as [-> _].
    unfold Conversation.findOne in *.
    apply list_find_Some in Hf as (Hi & Hu & Hleast).
    match goal with
    | |- context [<[i := ?r']> _] =>
        assert (list_find (λ r0, Conversation.userId r0 = u)
                  (<[i := r']> (conversations w)) = Some (i, r')) as ->;
          [|done]
    end.
    apply list_find_Some. split_and!.
    + apply list_lookup_insert_eq. by eapply lookup_lt_Some.
    + done.
    + intros j y Hj Hlt. rewrite list_lookup_insert_ne in Hj by lia.
      by eapply Hleast.
  - destruct (chat_replies_new c Hf) as [-> _].
    unfold Conversation.findOne in *.
    rewrite list_find_app_r by done. simpl.
    by rewrite decide_True.
Qed.

(** A failed request leaves the transcript as it was. *)
Lemma transcript_chat_rejects :
  transcript u (chat Rejects now m u w).1 = transcript u w.
Proof.
  unfold transcript.
  destruct chat_rejects as [_ [-> | [Hf ->]]]; [done|].
  rewrite Hf. unfold Conversation.findOne in *.
  rewrite list_find_app_r by done. simpl.
  by rewrite decide_True.
Qed.

End ChatFacts.

(** A request is answered with 200 only if it carries a non-empty
    [userId] and the model replies. *)
Lemma POST_chat_succeeded completion now req w :
  succeeded (POST_chat completion now req w).2 →
  ∃ u c, ChatReq.userId req = Some u ∧ u ≠ "" ∧ completion = Replies c
         ∧ POST_chat completion now req w
           = chat (Replies c) now (ChatReq.message req) u w.
Proof.
  unfold POST_chat, authenticateUser, succeeded.
  destruct (ChatReq.userId req) as [u|].
  - case_decide as Hu.
    + intros (resp & Hr & Hs). injection Hr as <-. discriminate Hs.
    + destruct completion as [|c].
      * destruct (chat_rejects now (ChatReq.message req) u w) as [-> _].
        intros (resp & Hr & Hs). injection Hr as <-. discriminate Hs.
      * eauto 10.
  - intros (resp & Hr & Hs). injection Hr as <-. discriminate Hs.
Qed.

(** A request without a usable [userId] is turned away with 401 and
    changes nothing. *)
Lemma POST_chat_unauthorized completion now req w :
  ChatReq.userId req = None ∨ ChatReq.userId req = Some "" →
  POST_chat completion now req w
  = (w, Some (res_status_json 401 (JError "Unauthorized"))).
Proof.
  unfold POST_chat, authenticateUser. by intros [-> | ->].
Qed.

(** Requests of one user, answered one after the other, each with 200:
    the stored transcript is the one before followed by the exchanges in
    the order of the requests, two turns for each. *)
Lemma chat_session_transcript u steps : ∀ w,
  Forall (λ s, ChatReq.userId s.1.2 = Some u) steps →
  Forall succeeded (chat_session steps w).2 →
  transcript u (chat_session steps w).1
  = transcript u w ++ concat (exchange <$> steps)
  ∧ length (concat (exchange <$> steps)) = (2 * length steps)%nat.
Proof.
  induction steps as [|[[now req] completion] steps IH]; intros w Hu Hs.
  - simpl. by rewrite app_nil_r.
  - apply Forall_cons in Hu as [Hu Hus]. simpl in Hu, Hs |- *.
    destruct (POST_chat completion now req w) as [w1 r] eqn:Hp.
    destruct (chat_session steps w1) as [w2 rs] eqn:Hrest.
    simpl in Hs |- *. apply Forall_cons in Hs as [Hr Hrs].
    pose proof (POST_chat_succeeded completion now req w) as Hinv.
    rewrite Hp in Hinv. destruct (Hinv Hr) as (u' & c & Hu' & _ & -> & Hchat).
    rewrite Hu in Hu'. injection Hu' as <-.
    specialize (IH w1 Hus). rewrite Hrest in IH.
    destruct (IH Hrs) as [IHt IHl]. simpl in IHt.
    assert (w1 = (chat (Replies c) now (ChatReq.message req) u w).1) as ->.
    { by rewrite <- Hchat. }
    rewrite IHt, transcript_chat_replies, <- app_assoc. simpl.
    split; [reflexivity|].
    change (list_fmap _ _ exchange steps) with (exchange <$> steps).
    rewrite IHl. lia.
Qed.

(** From no transcript, [N] answered requests leave one of [2 N]
    turns; every turn has role user or system, alternately. *)
Lemma chat_session_length u steps w :
  transcript u w = [] →
  Forall (λ s, ChatReq.userId s.1.2 = Some u) steps →
  Forall succeeded (chat_session steps w).2 →
  length (transcript u (chat_session steps w).1) = (2 * length steps)%nat.
Proof.
  intros He Hu Hs.
  destruct (chat_session_transcript u steps w Hu Hs) as [-> Hl].
  by rewrite He.
Qed.

(** The transcript only grows: the one stored before a run of answered
    requests is a prefix of the one stored after. *)
Lemma chat_session_append_only u steps w :
  Forall (λ s, ChatReq.userId s.1.2 = Some u) steps →
  Forall succeeded (chat_session steps w).2 →
  transcript u w `prefix_of` transcript u (chat_session steps w).1.
Proof.
  intros Hu Hs.
  destruct (chat_session_transcript u steps w Hu Hs) as [-> _].
  by apply prefix_app_r.
Qed.

(** C5.  The first chat request of user u1, answered by the endpoint
    with the reply "hello" under [data], is answered with 200 and
    leaves a transcript of two turns, the user's message and then the
    reply; the reply is stored under the role "system", which is not one
    of the roles user, assistant and system-function-result.  Answered
    with a plain chat completion, the same request gets 500 and leaves
    no turn. *)
Theorem chat_reply_stored_as_system :
  Forall succeeded (chat_session session_hi_in_data empty_world).2
  ∧ transcript "u1" (chat_session session_hi_in_data empty_world).1
    = [ {| role := "user"; content := Str "hi" |};
        {| role := "system"; content := Str "hello" |} ]
  ∧ ¬ Forall (λ t, role t ∈ spec_roles)
        (transcript "u1" (chat_session session_hi_in_data empty_world).1)
  ∧ (chat_session session_hi_plain empty_world).2
    = [ Some {| status := 500; json := JError "Error processing chat" |} ]
  ∧ transcript "u1" (chat_session session_hi_plain empty_world).1 = [].
Proof.
  assert (Forall succeeded (chat_session session_hi_in_data empty_world).2)
    as Hs.
  { repeat constructor. eexists. split; reflexivity. }
  assert (Forall (λ s : Z * ChatReq.body * Completion,
                    ChatReq.userId s.1.2 = Some "u1") session_hi_in_data)
    as Hu.
  { by repeat constructor. }
  destruct (chat_session_transcript "u1" session_hi_in_data empty_world Hu Hs)
    as [Ht _].
  split; [exact Hs|]. rewrite Ht. split; [reflexivity|]. split.
  - intros Hall. simpl in Hall.
    apply Forall_cons in Hall as [_ Hall].
    apply Forall_cons in Hall as [Hsys _].
    unfold spec_roles in Hsys. simpl in Hsys.
    repeat (apply elem_of_cons in Hsys as [Hsys|Hsys]; [discriminate Hsys|]).
    by apply elem_of_nil in Hsys.
  - split; [reflexivity|].
    change (transcript "u1"
              (chat Rejects mid_march (Some "hi") "u1" empty_world).1 = []).
    by rewrite transcript_chat_rejects.
Qed.

(** ** Sample dates *)

(* 2024-03-15T10:30:00Z is 1710498600000. *)
Example date_example_1 :
  (YearFromTime 1710498600000, MonthFromTime 1710498600000,
   DateFromTime 1710498600000) = (2024, 2, 15).
Proof. vm_compute. reflexivity. Qed.

(* 1969-12-31T23:59:59.999Z, one millisecond before the epoch. *)
Example date_example_2 :
  (YearFromTime (-1), MonthFromTime (-1), DateFromTime (-1)) = (1969, 11, 31).
Proof. vm_compute. reflexivity. Qed.

(* 2000-02-29 and 1900-03-01 (1900 is not a leap year). *)
Example date_example_3 :
  (YearFromTime 951782400000, MonthFromTime 951782400000,
   DateFromTime 951782400000) = (2000, 1, 29)
  /\ (YearFromTime (-2203891200000), MonthFromTime (-2203891200000),
      DateFromTime (-2203891200000)) = (1900, 2, 1).
Proof. vm_compute. split; reflexivity. Qed.

(* setDate normalises a day past the end of the month:
   2024-01-30 + 3 days = 2024-02-02. *)
Example setDate_example :
  setDate 0 (Some 1706610600000) (add (getDate 0 (Some 1706610600000)) (Some 3))
  = Some 1706869800000.
Proof. vm_compute. reflexivity. Qed.

(** * Further properties *)

(** ** Booking *)


(** X2.  A book request without [nights] that the Inventory service
    accepts under a new identifier is answered 200, and the row stored
    has the current time as check-in date and an invalid check-out
    date. *)
Theorem book_without_nights (LocalTZA : Z)
    (inventory : Inventory.payload → Inventory.outcome) (now : Z)
    (req : BookReq.body) (w : World) (d : Inventory.data) :
  inventory (book_payload req) = Inventory.Succeeds d →
  bookings w !! Inventory.bookingId d = None →
  BookReq.nights req = None →
  (POST_book LocalTZA inventory now req w).2 = Some (res_json (JBooking d))
  ∧ bookings (POST_book LocalTZA inventory now req w).1
      !! Inventory.bookingId d
    = Some {| Booking.userId := BookReq.email req;
              Booking.roomId := BookReq.roomId req;
              Booking.checkInDate := Some now;
              Booking.checkOutDate := None;
              Booking.totalAmount := Inventory.totalPrice d;
              Booking.isPaid := false |}.
Proof.
  intros Hi Hfresh Hn.
  rewrite (POST_book_created _ _ _ _ _ _ Hi Hfresh). simpl.
  split; [done|]. rewrite lookup_insert_eq.
  unfold book_row. by rewrite Hn, checkOut_undefined.
Qed.

Lemma book_without_nights_witness :
  Booking.checkOutDate
    <$> bookings (POST_book 0 inventory_X1 mid_march request_no_nights
                    empty_world).1 !! "X1"
  = Some None.
Proof.
  destruct (book_without_nights 0 inventory_X1 mid_march request_no_nights
              empty_world data_X1) as [_ Hrow];
    [reflexivity | reflexivity | reflexivity |].
  simpl in Hrow. by rewrite Hrow.
Defined.

(** X3.  POST /book never changes or removes a booking already stored,
    adds one row at most, and touches neither users nor conversations;
    it sends exactly one request to the Inventory service. *)
Theorem book_keeps_existing (LocalTZA : Z)
    (inventory : Inventory.payload → Inventory.outcome) (now : Z)
    (req : BookReq.body) (w : World) :
  bookings w ⊆ bookings (POST_book LocalTZA inventory now req w).1
  ∧ (size (bookings (POST_book LocalTZA inventory now req w).1)
     ≤ S (size (bookings w)))%nat
  ∧ users (POST_book LocalTZA inventory now req w).1 = users w
  ∧ conversations (POST_book LocalTZA inventory now req w).1
    = conversations w
  ∧ outbox (POST_book LocalTZA inventory now req w).1
    = outbox w ++ [book_payload req].
Proof.
  destruct (inventory (book_payload req)) as [|d] eqn:Hi.
  - rewrite (POST_book_upstream_failure _ _ _ _ _ Hi). simpl.
    split_and!; try done. lia.
  - destruct (bookings w !! Inventory.bookingId d) as [r|] eqn:Hb.
    + rewrite (POST_book_duplicate _ _ _ _ _ _ _ Hi Hb). simpl.
      split_and!; try done. lia.
    + rewrite (POST_book_created _ _ _ _ _ _ Hi Hb). simpl.
      split_and!; try done.
      * by apply insert_subseteq.
      * by rewrite map_size_insert_None.
Qed.

(** X4.  The owner of a booking is the e-mail it was booked with: right
    after a successful POST /book, POST /cancel-booking with that e-mail
    as [userId] is answered 200 and leaves the booking table as it was
    before the booking, and with any other [userId] it is answered 404
    and changes nothing. *)
Theorem book_then_cancel (LocalTZA : Z)
    (inventory : Inventory.payload → Inventory.outcome) (now : Z)
    (req : BookReq.body) (w : World) (d : Inventory.data) (e : string) :
  inventory (book_payload req) = Inventory.Succeeds d →
  bookings w !! Inventory.bookingId d = None →
  BookReq.email req = Some e →
  (POST_cancel_booking
     {| CancelReq.bookingId := Inventory.bookingId d; CancelReq.userId := e |}
     (POST_book LocalTZA inventory now req w).1).2
  = Some {| status := 200; json := JMessage "Booking canceled successfully" |}
  ∧ bookings
      (POST_cancel_booking
         {| CancelReq.bookingId := Inventory.bookingId d;
            CancelReq.userId := e |}
         (POST_book LocalTZA inventory now req w).1).1
    = bookings w
  ∧ ∀ u, u ≠ e →
      POST_cancel_booking
        {| CancelReq.bookingId := Inventory.bookingId d; CancelReq.userId := u |}
        (POST_book LocalTZA inventory now req w).1
      = ((POST_book LocalTZA inventory now req w).1,
         Some {| status := 404; json := JError "Booking not found" |}).
Proof.
  intros Hi Hfresh He.
  rewrite (POST_book_created _ _ _ _ _ _ Hi Hfresh). simpl.
  split_and!.
  - erewrite POST_cancel_booking_owner; [done| |].
    + simpl. apply lookup_insert_eq.
    + simpl. by rewrite He.
  - erewrite POST_cancel_booking_owner.
    + simpl. by rewrite delete_insert_id.
    + simpl. apply lookup_insert_eq.
    + simpl. by rewrite He.
  - intros u Hu. erewrite POST_cancel_booking_stranger; [done| |].
    + simpl. apply lookup_insert_eq.
    + simpl. rewrite He. congruence.
Qed.

Lemma book_then_cancel_witness :
  bookings
    (POST_cancel_booking
       {| CancelReq.bookingId := "X1"; CancelReq.userId := "a@b.com" |}
       (POST_book 0 inventory_X1 mid_march (request_room5 3) empty_world).1).1
  = bookings empty_world.
Proof.
  apply (book_then_cancel 0 inventory_X1 mid_march (request_room5 3)
           empty_world data_X1 "a@b.com"); reflexivity.
Defined.

(** X5.  A second POST /book for which the Inventory service returns the
    identifier of the booking just made is answered 500 and leaves that
    booking, with its room, dates and price, as the first call stored
    it. *)
Theorem book_twice (LocalTZA : Z)
    (inventory inventory' : Inventory.payload → Inventory.outcome)
    (now now' : Z) (req req' : BookReq.body) (w : World)
    (d d' : Inventory.data) :
  inventory (book_payload req) = Inventory.Succeeds d →
  bookings w !! Inventory.bookingId d = None →
  inventory' (book_payload req') = Inventory.Succeeds d' →
  Inventory.bookingId d' = Inventory.bookingId d →
  (POST_book LocalTZA inventory' now' req'
     (POST_book LocalTZA inventory now req w).1).2
  = Some {| status := 500; json := JError "Error booking room" |}
  ∧ bookings (POST_book LocalTZA inventory' now' req'
                (POST_book LocalTZA inventory now req w).1).1
    = bookings (POST_book LocalTZA inventory now req w).1
  ∧ bookings (POST_book LocalTZA inventory now req w).1
      !! Inventory.bookingId d
    = Some (book_row LocalTZA now req d).
Proof.
  intros Hi Hfresh Hi' Hid.
  rewrite (POST_book_created _ _ _ _ _ _ Hi Hfresh).
  erewrite (POST_book_duplicate _ _ _ _ _ d'); [|done|].
  - simpl. by rewrite lookup_insert_eq.
  - simpl. rewrite Hid. apply lookup_insert_eq.
Qed.

Lemma book_twice_witness :
  (POST_book 0 inventory_X1 (mid_march + 1) (request_room5 1)
     (POST_book 0 inventory_X1 mid_march (request_room5 3) empty_world).1).2
  = Some {| status := 500; json := JError "Error booking room" |}.
Proof.
  apply (book_twice 0 inventory_X1 inventory_X1 mid_march (mid_march + 1)
           (request_room5 3) (request_room5 1) empty_world data_X1 data_X1);
    reflexivity.
Defined.

(** ** Payment *)

(** X6.  A settled payment marks a booking only if the booking is
    already stored: paid right after POST /book, the stored row is the
    booked one with [isPaid = true]; paid before it, the payment leaves
    no trace and the row stored by POST /book has [isPaid = false]. *)
Theorem payment_order_matters (LocalTZA : Z)
    (inventory : Inventory.payload → Inventory.outcome) (now : Z)
    (req : BookReq.body) (w : World) (d : Inventory.data)
    (gw : Gateway.response) (a : Z) (m : string) :
  inventory (book_payload req) = Inventory.Succeeds d →
  bookings w !! Inventory.bookingId d = None →
  Gateway.success gw = true →
  bookings
    (processPayment gw (Inventory.bookingId d) a m
       (POST_book LocalTZA inventory now req w).1).1 !! Inventory.bookingId d
  = Some (Booking.set_isPaid true (book_row LocalTZA now req d))
  ∧ bookings
      (POST_book LocalTZA inventory now req
         (processPayment gw (Inventory.bookingId d) a m w).1).1
      !! Inventory.bookingId d
    = Some (Booking.set_isPaid false (book_row LocalTZA now req d)).
Proof.
  intros Hi Hfresh Hs. split.
  - rewrite (POST_book_created _ _ _ _ _ _ Hi Hfresh).
    rewrite (processPayment_settled _ _ _ _ _ Hs). simpl.
    unfold Booking.update_isPaid.
    by rewrite lookup_alter_eq, lookup_insert_eq.
  - rewrite (processPayment_settled _ _ _ _ _ Hs).
    rewrite (set_bookings_id _ w) by by apply update_isPaid_absent.
    rewrite (POST_book_created _ _ _ _ _ _ Hi Hfresh). simpl.
    by rewrite lookup_insert_eq.
Qed.

Lemma payment_order_matters_witness :
  (Booking.isPaid
     <$> bookings
           (processPayment gateway_ok "X1" 300 "paypal"
              (POST_book 0 inventory_X1 mid_march (request_room5 3)
                 empty_world).1).1 !! "X1")
  = Some true
  ∧ (Booking.isPaid
       <$> bookings
             (POST_book 0 inventory_X1 mid_march (request_room5 3)
                (processPayment gateway_ok "X1" 300 "paypal"
                   empty_world).1).1 !! "X1")
    = Some false.
Proof.
  destruct (payment_order_matters 0 inventory_X1 mid_march (request_room5 3)
              empty_world data_X1 gateway_ok 300 "paypal") as [H1 H2];
    [reflexivity | reflexivity | reflexivity |].
  split.
  - exact (f_equal (fmap Booking.isPaid) H1).
  - exact (f_equal (fmap Booking.isPaid) H2).
Defined.

(** X7.  [processPayment] creates no booking and removes none, leaves
    the [userId], [roomId], [checkInDate], [checkOutDate] and
    [totalAmount] of every booking as they were, and touches neither
    users nor conversations nor the Inventory service. *)
Theorem payment_keeps_rows (gw : Gateway.response) (b : string) (a : Z)
    (m : string) (w : World) :
  dom (bookings (processPayment gw b a m w).1) = dom (bookings w)
  ∧ (∀ id r, bookings w !! id = Some r →
       ∃ r', bookings (processPayment gw b a m w).1 !! id = Some r'
             ∧ Booking.userId r' = Booking.userId r
             ∧ Booking.roomId r' = Booking.roomId r
             ∧ Booking.checkInDate r' = Booking.checkInDate r
             ∧ Booking.checkOutDate r' = Booking.checkOutDate r
             ∧ Booking.totalAmount r' = Booking.totalAmount r)
  ∧ users (processPayment gw b a m w).1 = users w
  ∧ conversations (processPayment gw b a m w).1 = conversations w
  ∧ outbox (processPayment gw b a m w).1 = outbox w.
Proof.
  destruct (Gateway.success gw) eqn:Hs.
  - rewrite (processPayment_settled _ _ _ _ _ Hs). simpl.
    unfold Booking.update_isPaid. split_and!; try done.
    + apply set_eq. intros k. rewrite !elem_of_dom, lookup_alter.
      case_decide; [subst|done]. by rewrite fmap_is_Some.
    + intros id r Hr. rewrite lookup_alter. case_decide; subst.
      * rewrite Hr. simpl. eexists. split; [done|]. by split_and!.
      * exists r. by split_and!.
  - rewrite (processPayment_declined _ _ _ _ _ Hs). simpl.
    split_and!; try done.
    intros id r Hr. exists r. by split_and!.
Qed.

Lemma payment_keeps_rows_witness :
  bookings (world_X1 false) !! "X1" = Some (row_room7 false)
  ∧ ∃ r', bookings (processPayment gateway_ok "X1" 300 "paypal"
                      (world_X1 false)).1 !! "X1" = Some r'
          ∧ Booking.userId r' = Some "c@d.com"
          ∧ Booking.roomId r' = Some 7
          ∧ Booking.checkInDate r' = Some mid_march
          ∧ Booking.checkOutDate r' = Some (mid_march + 2 * msPerDay)
          ∧ Booking.totalAmount r' = 180.
Proof.
  split; [apply lookup_singleton_eq|].
  destruct (payment_keeps_rows gateway_ok "X1" 300 "paypal" (world_X1 false))
    as (_ & Hrows & _).
  apply (Hrows "X1" (row_room7 false)). apply lookup_singleton_eq.
Defined.




(** ** Chat *)

Lemma list_find_insert_other {A} (P : A → Prop) `{!∀ x, Decision (P x)}
    (l : list A) : ∀ i x y,
  l !! i = Some y → ¬ P y → ¬ P x → list_find P (<[i := x]> l) = list_find P l.
Proof.
  induction l as [|z l IH]; intros i x y Hi Hy Hx; [done|].
  destruct i as [|i]; simpl in *.
  - simplify_eq. by rewrite !decide_False.
  - case_decide; [done|]. by rewrite (IH i x y).
Qed.

Lemma list_find_snoc_other {A} (P : A → Prop) `{!∀ x, Decision (P x)}
    (l : list A) x :
  ¬ P x → list_find P (l ++ [x]) = list_find P l.
Proof.
  intros Hx. destruct (list_find P l) as [[i y]|] eqn:Hl.
  - by apply list_find_app_l.
  - rewrite list_find_app_r by done. simpl. by rewrite decide_False.
Qed.

(** What the handler of POST /chat does to the user table, whatever the
    model answers: the user is created without name and e-mail, or its
    [lastInteraction] is set. *)
Lemma chat_users completion now m u w :
  users (chat completion now m u w).1
  = match users w !! u with
    | None => <[u := {| User.fullName := None; User.email := None;
                        User.lastInteraction := now |}]> (users w)
    | Some _ => alter (User.set_lastInteraction now) u (users w)
    end
  ∧ bookings (chat completion now m u w).1 = bookings w
  ∧ outbox (chat completion now m u w).1 = outbox w.
Proof.
  unfold chat. run_async.
  destruct (users w !! u) as [usr|]; simpl;
    destruct (Conversation.findOne u (conversations w)) as [[i r]|];
    simpl; by destruct completion.
Qed.

(** What it does to the conversation table. *)
Lemma chat_conversations completion now m u w :
  conversations (chat completion now m u w).1
  = match Conversation.findOne u (conversations w), completion with
    | Some (i, r), Replies c =>
        <[i := Conversation.set_messages
                 (Conversation.messages r
                  ++ [ {| role := "user"; content := content_of m |};
                       {| role := "system"; content := c |} ]) r]>
          (conversations w)
    | Some _, Rejects => conversations w
    | None, Replies c =>
        conversations w
        ++ [ {| Conversation.userId := u;
                Conversation.messages :=
                  [ {| role := "user"; content := content_of m |};
                    {| role := "system"; content := c |} ] |} ]
    | None, Rejects =>
        conversations w
        ++ [ {| Conversation.userId := u; Conversation.messages := [] |} ]
    end.
Proof.
  destruct (Conversation.findOne u (conversations w)) as [[i r]|] eqn:Hf;
    destruct completion as [|c].
  - unfold chat. run_async.
    destruct (users w !! u) as [usr|]; simpl; by rewrite Hf.
  - by destruct (chat_replies_found now m u w c i r Hf) as [-> _].
  - unfold chat. run_async.
    destruct (users w !! u) as [usr|]; simpl; by rewrite Hf.
  - by destruct (chat_replies_new now m u w c Hf) as [-> _].
Qed.

(** A chat of one user leaves the transcript of another as it was. *)
Lemma transcript_chat_other completion now m u u' w :
  u' ≠ u → transcript u' (chat completion now m u w).1 = transcript u' w.
Proof.
  intros Hne. unfold transcript. rewrite chat_conversations.
  unfold Conversation.findOne.
  destruct (list_find (λ r, Conversation.userId r = u) (conversations w))
    as [[i r]|] eqn:Hf; destruct completion as [|c]; try done.
  - apply list_find_Some in Hf as (Hi & Hu & _).
    rewrite (list_find_insert_other _ _ i _ r); [done..| |]; simpl; congruence.
  - rewrite list_find_snoc_other; [done|]. simpl. congruence.
  - rewrite list_find_snoc_other; [done|]. simpl. congruence.
Qed.

Lemma POST_chat_authorized completion now m u w :
  u ≠ "" →
  POST_chat completion now {| ChatReq.userId := Some u; ChatReq.message := m |} w
  = chat completion now m u w.
Proof. intros Hu. unfold POST_chat, authenticateUser. simpl. by rewrite decide_False. Qed.

(** X9.  POST /chat is answered 401 exactly when the request carries no
    [userId] or an empty one, and then no user is created and nothing
    else changes, whatever the model would have answered. *)
Theorem chat_requires_userId (completion : Completion) (now : Z)
    (req : ChatReq.body) (w : World) :
  ((POST_chat completion now req w).2
   = Some {| status := 401; json := JError "Unauthorized" |}
   ↔ ChatReq.userId req = None ∨ ChatReq.userId req = Some "")
  ∧ (ChatReq.userId req = None ∨ ChatReq.userId req = Some "" →
     (POST_chat completion now req w).1 = w).
Proof.
  split.
  - split.
    + destruct req as [[u|] m]; simpl; [|by left].
      destruct (decide (u = "")) as [->|Hu]; [by right|].
      rewrite POST_chat_authorized by done.
      destruct completion as [|c].
      * destruct (chat_rejects now m u w) as [-> _]. discriminate.
      * unfold transcript.
        destruct (Conversation.findOne u (conversations w)) as [[i r]|] eqn:Hf.
        -- destruct (chat_replies_found now m u w c i r Hf) as [_ ->].
           discriminate.
        -- destruct (chat_replies_new now m u w c Hf) as [_ ->].
           discriminate.
    + intros H. by rewrite POST_chat_unauthorized.
  - intros H. by rewrite POST_chat_unauthorized.
Qed.

Lemma chat_requires_userId_witness :
  (POST_chat (Replies (Str "hello")) mid_march
     {| ChatReq.userId := Some ""; ChatReq.message := Some "hi" |}
     empty_world).1
  = empty_world.
Proof.
  apply (chat_requires_userId (Replies (Str "hello")) mid_march
           {| ChatReq.userId := Some ""; ChatReq.message := Some "hi" |}
           empty_world).
  right. reflexivity.
Defined.

(** X10.  When the model call of an authenticated POST /chat fails, the
    answer is 500 and the stored transcript of every user, the caller
    included, is as it was: the user's message is not kept. *)
Theorem chat_failure_keeps_transcripts (now : Z) (m : option string)
    (u : string) (w : World) :
  u ≠ "" →
  (POST_chat Rejects now
     {| ChatReq.userId := Some u; ChatReq.message := m |} w).2
  = Some {| status := 500; json := JError "Error processing chat" |}
  ∧ ∀ u', transcript u'
            (POST_chat Rejects now
               {| ChatReq.userId := Some u; ChatReq.message := m |} w).1
          = transcript u' w.
Proof.
  intros Hu. rewrite POST_chat_authorized by done. split.
  - by destruct (chat_rejects now m u w) as [-> _].
  - intros u'. destruct (decide (u' = u)) as [->|Hne].
    + apply transcript_chat_rejects.
    + by apply transcript_chat_other.
Qed.

Lemma chat_failure_keeps_transcripts_witness :
  transcript "u1" (POST_chat Rejects mid_march chat_hi empty_world).1
  = transcript "u1" empty_world.
Proof.
  apply (chat_failure_keeps_transcripts mid_march (Some "hi") "u1"
           empty_world).
  discriminate.
Defined.

(** X11.  Every authenticated POST /chat, answered or failed, records
    the caller: afterwards the user exists with [lastInteraction] set to
    the time of the request and the name and e-mail it had before (none
    for a user created by the request); no other user and no booking is
    touched. *)
Theorem chat_touches_user (completion : Completion) (now : Z)
    (m : option string) (u : string) (w : World) :
  u ≠ "" →
  users (POST_chat completion now
           {| ChatReq.userId := Some u; ChatReq.message := m |} w).1 !! u
  = Some {| User.fullName := users w !! u ≫= User.fullName;
            User.email := users w !! u ≫= User.email;
            User.lastInteraction := now |}
  ∧ (∀ u', u' ≠ u →
       users (POST_chat completion now
                {| ChatReq.userId := Some u; ChatReq.message := m |} w).1
         !! u'
       = users w !! u')
  ∧ bookings (POST_chat completion now
                {| ChatReq.userId := Some u; ChatReq.message := m |} w).1
    = bookings w.
Proof.
  intros Hu. rewrite POST_chat_authorized by done.
  destruct (chat_users completion now m u w) as (-> & -> & _).
  destruct (users w !! u) as [usr|] eqn:Hl; simpl.
  - split_and!; [|intros u' Hne|done].
    + by rewrite lookup_alter_eq, Hl.
    + by rewrite lookup_alter_ne.
  - split_and!; [|intros u' Hne|done].
    + by rewrite lookup_insert_eq.
    + by rewrite lookup_insert_ne.
Qed.

Lemma chat_touches_user_witness :
  users (POST_chat Rejects mid_march chat_hi world_ann).1 !! "u1"
  = Some {| User.fullName := Some "Ann"; User.email := Some "ann@b.com";
            User.lastInteraction := mid_march |}.
Proof.
  destruct (chat_touches_user Rejects mid_march (Some "hi") "u1" world_ann)
    as [H _]; [discriminate|].
  exact H.
Defined.

(** X12.  A POST /chat of one user, answered or failed, leaves the
    stored transcript of every other user as it was. *)
Theorem chat_isolation (completion : Completion) (now : Z)
    (m : option string) (u u' : string) (w : World) :
  u ≠ "" → u' ≠ u →
  transcript u'
    (POST_chat completion now
       {| ChatReq.userId := Some u; ChatReq.message := m |} w).1
  = transcript u' w.
Proof.
  intros Hu Hne. rewrite POST_chat_authorized by done.
  by apply transcript_chat_other.
Qed.

Lemma chat_isolation_witness :
  transcript "u2"
    (POST_chat (Replies (Str "hello")) mid_march chat_hi empty_world).1
  = transcript "u2" empty_world.
Proof.
  apply (chat_isolation (Replies (Str "hello")) mid_march (Some "hi")
           "u1" "u2" empty_world); discriminate.
Defined.

(** X13.  The body of an answered POST /chat is the whole transcript as
    it is stored afterwards, the new message and reply last. *)
Theorem chat_response_is_transcript (c : Content) (now : Z)
    (m : option string) (u : string) (w : World) :
  u ≠ "" →
  (POST_chat (Replies c) now
     {| ChatReq.userId := Some u; ChatReq.message := m |} w).2
  = Some {| status := 200;
            json := JMessages
              (transcript u
                 (POST_chat (Replies c) now
                    {| ChatReq.userId := Some u; ChatReq.message := m |}
                    w).1) |}
  ∧ transcript u
      (POST_chat (Replies c) now
         {| ChatReq.userId := Some u; ChatReq.message := m |} w).1
    = transcript u w
      ++ [ {| role := "user"; content := content_of m |};
           {| role := "system"; content := c |} ].
Proof.
  intros Hu. rewrite POST_chat_authorized by done.
  rewrite transcript_chat_replies. split; [|done].
  unfold transcript.
  destruct (Conversation.findOne u (conversations w)) as [[i r]|] eqn:Hf.
  - by destruct (chat_replies_found now m u w c i r Hf) as [_ ->].
  - by destruct (chat_replies_new now m u w c Hf) as [_ ->].
Qed.

Lemma chat_response_is_transcript_witness :
  (POST_chat (Replies (Str "hello")) mid_march chat_hi empty_world).2
  = Some {| status := 200;
            json := JMessages
                      [ {| role := "user"; content := Str "hi" |};
                        {| role := "system"; content := Str "hello" |} ] |}.
Proof.
  destruct (chat_response_is_transcript (Str "hello") mid_march (Some "hi")
              "u1" empty_world) as [H1 H2]; [discriminate|].
  exact (eq_trans H1 (f_equal (λ t, Some {| status := 200;
                                             json := JMessages t |}) H2)).
Defined.

(** ** Conversations *)

Lemma filter_by_key_NoDup {A K} `{EqDecision K} (f : A → K) (k : K)
    (l : list A) :
  NoDup (f <$> l) →
  filter (λ x, f x = k) l
  = match list_find (λ x, f x = k) l with
    | Some (_, x) => [x]
    | None => []
    end.
Proof.
  induction l as [|x l IH]; [done|].
  rewrite fmap_cons, NoDup_cons. intros [Hx Hl]. simpl.
  destruct (decide (f x = k)) as [Hk|Hk].
  - rewrite filter_cons_True by done. f_equal.
    destruct (filter (λ y, f y = k) l) as [|y l'] eqn:Hfil; [done|].
    assert (y ∈ filter (λ y, f y = k) l) as Hy by (rewrite Hfil; left).
    apply list_elem_of_filter in Hy as [Hyk Hyl].
    destruct Hx. rewrite Hk, <- Hyk. by apply list_elem_of_fmap_2.
  - rewrite filter_cons_False by done. rewrite (IH Hl).
    by destruct (list_find (λ y, f y = k) l) as [[i y]|].
Qed.

Lemma chat_one_conversation_each completion now m u w :
  one_conversation_each w →
  one_conversation_each (chat completion now m u w).1.
Proof.
  unfold one_conversation_each. intros Hnd. rewrite chat_conversations.
  unfold Conversation.findOne.
  destruct (list_find (λ r, Conversation.userId r = u) (conversations w))
    as [[i r]|] eqn:Hf.
  - destruct completion as [|c]; [done|].
    apply list_find_Some in Hf as (Hi & _ & _).
    rewrite list_fmap_insert. simpl.
    rewrite list_insert_id; [done|]. by rewrite list_lookup_fmap, Hi.
  - apply list_find_None in Hf.
    assert (u ∉ Conversation.userId <$> conversations w) as Hu.
    { intros (r & -> & Hr)%list_elem_of_fmap.
      by eapply (proj1 (Forall_forall _ _) Hf r). }
    destruct completion as [|c]; rewrite fmap_app; simpl;
      apply NoDup_app; (split; [done|]); (split; [|apply NoDup_singleton]);
      intros x Hx ->%list_elem_of_singleton; done.
Qed.

(** X14.  Requests to POST /chat handled one after the other never
    leave a user with two conversation rows: if there is at most one
    row for each user before, as in an empty table, there is at most one
    for each user after, whatever the requests and the model's
    answers. *)
Theorem chat_session_one_conversation_each
    (steps : list (Z * ChatReq.body * Completion)) : ∀ w : World,
  one_conversation_each w →
  one_conversation_each (chat_session steps w).1.
Proof.
  induction steps as [|[[now req] completion] steps IH]; intros w Hw; [done|].
  simpl.
  destruct (POST_chat completion now req w) as [w1 r] eqn:Hp.
  destruct (chat_session steps w1) as [w2 rs] eqn:Hrest. simpl.
  specialize (IH w1). rewrite Hrest in IH. apply IH.
  replace w1 with (POST_chat completion now req w).1 by by rewrite Hp.
  unfold POST_chat, authenticateUser.
  destruct (ChatReq.userId req) as [u|]; [|done].
  case_decide; [done|]. by apply chat_one_conversation_each.
Qed.

Lemma chat_session_one_conversation_each_witness :
  one_conversation_each
    (chat_session (session_hi ++ session_hi) empty_world).1.
Proof.
  apply (chat_session_one_conversation_each (session_hi ++ session_hi)
           empty_world).
  apply NoDup_nil_2.
Defined.

(** X15.  When there is at most one conversation row for each user,
    GET /conversations/:userId answers 200 with no row for a user
    without a conversation and otherwise with the single row of that
    user, holding the stored transcript; it changes nothing. *)
Theorem conversations_of_user (u : string) (w : World) :
  one_conversation_each w →
  GET_conversations u w
  = (w, Some (Json
       match Conversation.findOne u (conversations w) with
       | Some _ => [ {| Conversation.userId := u;
                        Conversation.messages := transcript u w |} ]
       | None => []
       end)).
Proof.
  intros Hw. unfold GET_conversations. run_async. do 3 f_equal.
  rewrite (filter_by_key_NoDup Conversation.userId u _ Hw).
  unfold transcript, Conversation.findOne.
  destruct (list_find (λ r, Conversation.userId r = u) (conversations w))
    as [[i r]|] eqn:Hf; [|done].
  apply list_find_Some in Hf as (_ & <- & _). by destruct r.
Qed.

Lemma conversations_of_user_witness :
  GET_conversations "u1" empty_world = (empty_world, Some (Json [])).
Proof.
  apply (conversations_of_user "u1" empty_world). apply NoDup_nil_2.
Defined.

(** ** Unknown bookings *)

Lemma DELETE_delete_booking_missing (req : DeleteReq.request) (w : World) :
  bookings w !! DeleteReq.bookingId req = None →
  DELETE_delete_booking req w
  = (w, Some (res_status_json 404 (JError "Booking not found"))).
Proof.
  intros Hl. unfold DELETE_delete_booking, Booking.findOne.
  run_async. by rewrite Hl.
Qed.

(** X16.  For a [bookingId] under which nothing is stored,
    DELETE /delete-booking, POST /cancel-booking (whatever the [userId])
    and GET /booking-details all answer 404 "Booking not found" and
    change nothing. *)
Theorem unknown_booking_is_404 (id : string) (w : World) :
  bookings w !! id = None →
  (∀ u, DELETE_delete_booking
          {| DeleteReq.bookingId := id; DeleteReq.userId := u |} w
        = (w, Some {| status := 404; json := JError "Booking not found" |}))
  ∧ (∀ u, POST_cancel_booking
            {| CancelReq.bookingId := id; CancelReq.userId := u |} w
          = (w, Some {| status := 404; json := JError "Booking not found" |}))
  ∧ GET_booking_details id w
    = (w, Some (Other {| status := 404; json := JError "Booking not found" |})).
Proof.
  intros Hl. split_and!.
  - intros u. by apply DELETE_delete_booking_missing.
  - intros u. unfold POST_cancel_booking, Booking.findOne_owned.
    run_async. by rewrite Hl.
  - unfold GET_booking_details, Booking.findOne. run_async. by rewrite Hl.
Qed.

Lemma unknown_booking_is_404_witness :
  GET_booking_details "Z9" (world_X1 false)
  = (world_X1 false,
     Some (Other {| status := 404; json := JError "Booking not found" |})).
Proof.
  apply (unknown_booking_is_404 "Z9" (world_X1 false)). reflexivity.
Defined.

(** X17.  Deleting twice: whatever the first DELETE /delete-booking of
    an identifier answered, a second one for the same identifier is
    answered 404 and changes nothing more. *)
Theorem delete_twice (req req' : DeleteReq.request) (w : World) :
  DeleteReq.bookingId req' = DeleteReq.bookingId req →
  DELETE_delete_booking req' (DELETE_delete_booking req w).1
  = ((DELETE_delete_booking req w).1,
     Some {| status := 404; json := JError "Booking not found" |}).
Proof.
  intros Hid. apply DELETE_delete_booking_missing. rewrite Hid.
  destruct (bookings w !! DeleteReq.bookingId req) as [r|] eqn:Hl.
  - rewrite (DELETE_delete_booking_found _ _ _ Hl). simpl.
    apply lookup_delete_eq.
  - by rewrite (DELETE_delete_booking_missing _ _ Hl).
Qed.

Lemma delete_twice_witness :
  (DELETE_delete_booking
     {| DeleteReq.bookingId := "X1"; DeleteReq.userId := None |}
     (DELETE_delete_booking
        {| DeleteReq.bookingId := "X1"; DeleteReq.userId := None |}
        (world_X1 true)).1).2
  = Some {| status := 404; json := JError "Booking not found" |}.
Proof.
  exact (f_equal snd
           (delete_twice
              {| DeleteReq.bookingId := "X1"; DeleteReq.userId := None |}
              {| DeleteReq.bookingId := "X1"; DeleteReq.userId := None |}
              (world_X1 true) eq_refl)).
Defined.

(** X18.  GET /booking-details/:bookingId changes nothing and answers
    with the stored row when there is one; after a successful POST /book
    it answers with the row just stored, and after a
    DELETE /delete-booking of that identifier with 404. *)
Theorem booking_details_round_trip (LocalTZA : Z)
    (inventory : Inventory.payload → Inventory.outcome) (now : Z)
    (req : BookReq.body) (w : World) (d : Inventory.data) :
  inventory (book_payload req) = Inventory.Succeeds d →
  bookings w !! Inventory.bookingId d = None →
  (∀ id r w0, bookings w0 !! id = Some r →
     GET_booking_details id w0 = (w0, Some (Json r)))
  ∧ (GET_booking_details (Inventory.bookingId d)
       (POST_book LocalTZA inventory now req w).1).2
    = Some (Json (book_row LocalTZA now req d))
  ∧ (GET_booking_details (Inventory.bookingId d)
       (DELETE_delete_booking
          {| DeleteReq.bookingId := Inventory.bookingId d;
             DeleteReq.userId := None |}
          (POST_book LocalTZA inventory now req w).1).1).2
    = Some (Other {| status := 404; json := JError "Booking not found" |}).
Proof.
  intros Hi Hfresh.
  assert (∀ id r w0, bookings w0 !! id = Some r →
            GET_booking_details id w0 = (w0, Some (Json r))) as Hget.
  { intros id r w0 Hl. unfold GET_booking_details, Booking.findOne.
    run_async. by rewrite Hl. }
  split; [exact Hget|].
  rewrite (POST_book_created _ _ _ _ _ _ Hi Hfresh). split.
  - erewrite Hget; [done|]. simpl. apply lookup_insert_eq.
  - erewrite DELETE_delete_booking_found by (simpl; apply lookup_insert_eq).
    simpl. unfold GET_booking_details, Booking.findOne. run_async.
    by rewrite lookup_delete_eq.
Qed.

Lemma booking_details_round_trip_witness :
  (GET_booking_details "X1"
     (POST_book 0 inventory_X1 mid_march (request_room5 3) empty_world).1).2
  = Some (Json (book_row 0 mid_march (request_room5 3) data_X1)).
Proof.
  apply (booking_details_round_trip 0 inventory_X1 mid_march
           (request_room5 3) empty_world data_X1); reflexivity.
Defined.

(** X19.  GET /bookings/:userId changes nothing and answers with exactly
    the stored bookings whose [userId] column is the parameter.  As
    POST /book stores the e-mail of the request in that column, a new
    booking is listed under its e-mail and the listing of every other
    [userId] stays as it was. *)
Theorem bookings_of_user (LocalTZA : Z)
    (inventory : Inventory.payload → Inventory.outcome) (now : Z)
    (req : BookReq.body) (w : World) (d : Inventory.data) (e : string) :
  inventory (book_payload req) = Inventory.Succeeds d →
  bookings w !! Inventory.bookingId d = None →
  BookReq.email req = Some e →
  (∀ u w0, ∃ rows,
     GET_bookings u w0 = (w0, Some (Json rows))
     ∧ ∀ id r, rows !! id = Some r
               ↔ bookings w0 !! id = Some r ∧ Booking.userId r = Some u)
  ∧ (∃ rows rows',
       (GET_bookings e w).2 = Some (Json rows)
       ∧ (GET_bookings e (POST_book LocalTZA inventory now req w).1).2
         = Some (Json rows')
       ∧ rows' = <[Inventory.bookingId d := book_row LocalTZA now req d]> rows)
  ∧ (∀ u, u ≠ e →
       (GET_bookings u (POST_book LocalTZA inventory now req w).1).2
       = (GET_bookings u w).2).
Proof.
  intros Hi Hfresh He.
  assert (∀ u w0,
            GET_bookings u w0
            = (w0, Some (Json (filter (λ kv, Booking.userId kv.2 = Some u)
                                 (bookings w0))))) as Hget.
  { intros u w0. unfold GET_bookings. by run_async. }
  split_and!.
  - intros u w0. eexists. split; [apply Hget|].
    intros id r. by rewrite map_lookup_filter_Some.
  - do 2 eexists. rewrite !Hget. split; [done|]. split; [done|].
    rewrite (POST_book_created _ _ _ _ _ _ Hi Hfresh). simpl.
    rewrite map_filter_insert_True; [done|]. simpl. by rewrite He.
  - intros u Hu. rewrite !Hget.
    rewrite (POST_book_created _ _ _ _ _ _ Hi Hfresh). simpl.
    rewrite map_filter_insert_False.
    + by rewrite delete_id.
    + simpl. rewrite He. congruence.
Qed.

Lemma bookings_of_user_witness :
  (GET_bookings "u1"
     (POST_book 0 inventory_X1 mid_march (request_room5 3) empty_world).1).2
  = (GET_bookings "u1" empty_world).2.
Proof.
  apply (bookings_of_user 0 inventory_X1 mid_march (request_room5 3)
           empty_world data_X1 "a@b.com"); try reflexivity.
  discriminate.
Defined.

(** ** Users *)

Lemma POST_register_new (now : Z) (req : RegisterReq.body) (w : World) :
  users w !! RegisterReq.userId req = None →
  POST_register now req w
  = (set_users
       (λ _, <[RegisterReq.userId req :=
                 {| User.fullName := RegisterReq.fullName req;
                    User.email := RegisterReq.email req;
                    User.lastInteraction := now |}]> (users w)) w,
     Some (Json (RegisterReq.userId req,
                 {| User.fullName := RegisterReq.fullName req;
                    User.email := RegisterReq.email req;
                    User.lastInteraction := now |}))).
Proof.
  intros Hl. unfold POST_register, UserTable.create. run_async.
  by rewrite Hl.
Qed.

Lemma POST_register_taken (now : Z) (req : RegisterReq.body) (w : World) r :
  users w !! RegisterReq.userId req = Some r →
  POST_register now req w
  = (w, Some (Other (res_status_json 500 (JError "Error registering user")))).
Proof.
  intros Hl. unfold POST_register, UserTable.create. run_async.
  by rewrite Hl.
Qed.

(** X20.  POST /register answers 200 exactly when no user is stored
    under the [userId]; it then stores the user with the name and e-mail
    of the request and the current time as [lastInteraction].  For a
    [userId] already stored it answers 500 and the stored user, like
    everything else, is as it was. *)
Theorem register_only_new (now : Z) (req : RegisterReq.body) (w : World) :
  (reply_status <$> (POST_register now req w).2 = Some 200
   ↔ users w !! RegisterReq.userId req = None)
  ∧ (users w !! RegisterReq.userId req = None →
     users (POST_register now req w).1 !! RegisterReq.userId req
     = Some {| User.fullName := RegisterReq.fullName req;
               User.email := RegisterReq.email req;
               User.lastInteraction := now |}
     ∧ ∀ u, u ≠ RegisterReq.userId req →
         users (POST_register now req w).1 !! u = users w !! u)
  ∧ (is_Some (users w !! RegisterReq.userId req) →
     POST_register now req w
     = (w, Some (Other {| status := 500;
                          json := JError "Error registering user" |}))).
Proof.
  destruct (users w !! RegisterReq.userId req) as [r|] eqn:Hl.
  - rewrite (POST_register_taken _ _ _ _ Hl). simpl.
    split_and!; [split; discriminate|discriminate|done].
  - rewrite (POST_register_new _ _ _ Hl). simpl.
    split_and!; [done| |by intros [? ?]].
    intros _. split; [apply lookup_insert_eq|].
    intros u Hu. by rewrite lookup_insert_ne.
Qed.

Lemma register_only_new_witness :
  POST_register mid_march register_ann world_ann
  = (world_ann,
     Some (Other {| status := 500; json := JError "Error registering user" |})).
Proof.
  apply (register_only_new mid_march register_ann world_ann).
  eexists. apply lookup_singleton_eq.
Defined.

(** X21.  A user who has used POST /chat cannot register afterwards:
    the chat, answered or failed, has created the user without name and
    e-mail if it was unknown, so a POST /register for the same [userId]
    is answered 500 and changes nothing. *)
Theorem chat_then_register (completion : Completion) (now now' : Z)
    (m : option string) (req : RegisterReq.body) (w : World) :
  RegisterReq.userId req ≠ "" →
  POST_register now' req
    (POST_chat completion now
       {| ChatReq.userId := Some (RegisterReq.userId req);
          ChatReq.message := m |} w).1
  = ((POST_chat completion now
        {| ChatReq.userId := Some (RegisterReq.userId req);
           ChatReq.message := m |} w).1,
     Some (Other {| status := 500; json := JError "Error registering user" |}))
  ∧ (users w !! RegisterReq.userId req = None →
     users (POST_chat completion now
              {| ChatReq.userId := Some (RegisterReq.userId req);
                 ChatReq.message := m |} w).1 !! RegisterReq.userId req
     = Some {| User.fullName := None; User.email := None;
               User.lastInteraction := now |}).
Proof.
  intros Hu. rewrite POST_chat_authorized by done.
  destruct (chat_users completion now m (RegisterReq.userId req) w)
    as (Husers & _ & _).
  destruct (users w !! RegisterReq.userId req) as [r|] eqn:Hl.
  - split; [|done].
    eapply POST_register_taken. rewrite Husers. rewrite lookup_alter_eq, Hl.
    done.
  - split.
    + eapply POST_register_taken. rewrite Husers. apply lookup_insert_eq.
    + intros _. rewrite Husers. apply lookup_insert_eq.
Qed.

Lemma chat_then_register_witness :
  (POST_register (mid_march + 1) register_ann
     (POST_chat (Replies (Str "hello")) mid_march chat_hi empty_world).1).2
  = Some (Other {| status := 500; json := JError "Error registering user" |}).
Proof.
  destruct (chat_then_register (Replies (Str "hello")) mid_march
              (mid_march + 1) (Some "hi") register_ann empty_world) as [H _];
    [discriminate|].
  exact (f_equal snd H).
Defined.

(** X22.  PUT /update-user/:userId always answers 200 "User updated
    successfully".  For a stored user it replaces name and e-mail and
    keeps [lastInteraction]; for an unknown [userId] it creates nothing
    and changes nothing.  No other user, no booking and no conversation
    is touched. *)
Theorem update_user_silent (userId : string) (req : UpdateUserReq.body)
    (w : World) :
  (PUT_update_user userId req w).2
  = Some {| status := 200; json := JMessage "User updated successfully" |}
  ∧ users (PUT_update_user userId req w).1 !! userId
    = (λ r, {| User.fullName := Some (UpdateUserReq.fullName req);
               User.email := Some (UpdateUserReq.email req);
               User.lastInteraction := User.lastInteraction r |})
      <$> users w !! userId
  ∧ (users w !! userId = None → (PUT_update_user userId req w).1 = w)
  ∧ (∀ u, u ≠ userId →
       users (PUT_update_user userId req w).1 !! u = users w !! u)
  ∧ bookings (PUT_update_user userId req w).1 = bookings w
  ∧ conversations (PUT_update_user userId req w).1 = conversations w.
Proof.
  unfold PUT_update_user, UserTable.update_contact. run_async.
  split_and!; try done.
  - by rewrite lookup_alter_eq.
  - intros Hl. destruct w as [us cs bs ob]. unfold set_users. simpl in *.
    f_equal. apply map_eq. intros k. rewrite lookup_alter.
    case_decide; [subst; by rewrite Hl|done].
  - intros u Hu. by rewrite lookup_alter_ne.
Qed.

Lemma update_user_silent_witness :
  PUT_update_user "nobody"
    {| UpdateUserReq.fullName := "N"; UpdateUserReq.email := "n@b.com" |}
    world_ann
  = (world_ann,
     Some {| status := 200; json := JMessage "User updated successfully" |}).
Proof.
  destruct (update_user_silent "nobody"
              {| UpdateUserReq.fullName := "N";
                 UpdateUserReq.email := "n@b.com" |} world_ann)
    as (H2 & _ & H1 & _).
  rewrite <- (H1 eq_refl) at 2. rewrite <- H2. by destruct (PUT_update_user _ _ _).
Defined.

(** ** Sessions of several users *)

Lemma transcript_POST_chat u completion now req w :
  u ≠ "" →
  transcript u (POST_chat completion now req w).1
  = transcript u w
    ++ (if decide (ChatReq.userId req = Some u)
        then exchange (now, req, completion) else []).
Proof.
  intros Hu. destruct req as [[u'|] m]; cbn [ChatReq.userId].
  - destruct (decide (u' = "")) as [->|Hu'].
    + rewrite POST_chat_unauthorized by (by right).
      rewrite decide_False by congruence. by rewrite app_nil_r.
    + rewrite POST_chat_authorized by done.
      destruct (decide (u' = u)) as [->|Hne].
      * rewrite decide_True by done.
        destruct completion as [|c]; cbn [exchange ChatReq.message].
        -- by rewrite transcript_chat_rejects, app_nil_r.
        -- by rewrite transcript_chat_replies.
      * rewrite decide_False by congruence.
        rewrite transcript_chat_other by done. by rewrite app_nil_r.
  - rewrite POST_chat_unauthorized by (by left).
    by rewrite app_nil_r.
Qed.

(** X23.  Over any sequence of POST /chat requests handled one after
    the other, of any users, authenticated or not, answered or failed,
    the transcript stored for a user grows by exactly the exchanges of
    that user's answered requests, in the order of the requests: failed
    requests, requests turned away and requests of other users add
    nothing to it. *)
Theorem chat_session_interleaved (u : string)
    (steps : list (Z * ChatReq.body * Completion)) : ∀ w : World,
  u ≠ "" →
  transcript u (chat_session steps w).1
  = transcript u w
    ++ concat (exchange
                 <$> filter (λ s, ChatReq.userId s.1.2 = Some u) steps).
Proof.
  induction steps as [|[[now req] completion] steps IH]; intros w Hu.
  - simpl. by rewrite app_nil_r.
  - simpl.
    destruct (POST_chat completion now req w) as [w1 r] eqn:Hp.
    destruct (chat_session steps w1) as [w2 rs] eqn:Hrest. simpl.
    specialize (IH w1 Hu). rewrite Hrest in IH. simpl in IH. rewrite IH.
    replace w1 with (POST_chat completion now req w).1 by by rewrite Hp.
    rewrite transcript_POST_chat by done. rewrite <- app_assoc. f_equal.
    rewrite filter_cons. simpl.
    destruct (decide (ChatReq.userId req = Some u)); [|done].
    by rewrite fmap_cons.
Qed.

Lemma chat_session_interleaved_witness :
  transcript "u1"
    (chat_session
       [ (mid_march, chat_hi, Rejects);
         (mid_march + 1,
          {| ChatReq.userId := Some "u2"; ChatReq.message := Some "yo" |},
          Replies (Str "hey"));
         (mid_march + 2, chat_hi, Replies (Str "hello")) ]
       empty_world).1
  = [ {| role := "user"; content := Str "hi" |};
      {| role := "system"; content := Str "hello" |} ].
Proof.
  apply (chat_session_interleaved "u1"
           [ (mid_march, chat_hi, Rejects);
             (mid_march + 1,
              {| ChatReq.userId := Some "u2"; ChatReq.message := Some "yo" |},
              Replies (Str "hey"));
             (mid_march + 2, chat_hi, Replies (Str "hello")) ]
           empty_world).
  discriminate.
Defined.
